(** * RouPremium: the checkout transaction of [POST /api/simulacao/sair]

    A shallow embedding of [src/routes/simulacao.js] over the relational
    schema of [prisma/migrations/20250921171157_init/migration.sql].

    - Tables are lists of rows, in storage order.
    - Money is [Prisma.Decimal], the decimal.js type with its default
      configuration.  Every amount the handler sees is a whole number of
      cents, so a decimal is held as its count of cents.
    - The callback handed to [prisma.$transaction] is a computation in a
      state-and-error monad over the database; [transaction] commits the
      working copy or discards it.
    - Each awaited call may be left unanswered by the database; which
      ones are is part of the environment of a request.
    - [req.body.clienteId] is an integer, as the front end sends it
      ([parseInt]); bodies of another shape are outside the model.  An
      integer that is no value of an [INTEGER] column is refused by the
      database client when a query names it. *)

From Stdlib Require Import ZArith String List Bool Lia Permutation.
Import ListNotations.
Local Open Scope string_scope.
Local Open Scope list_scope.
Local Open Scope Z_scope.

(** ** Prisma.Decimal *)

Module Decimal.

(** A decimal [d] with two fractional digits is the integer [100 * d]. *)
Abbreviation t := Z (only parsing).

(** [Decimal.precision]: results of arithmetic keep this many
    significant digits. *)
Definition precision : Z := 20.

Definition limite : Z := 10 ^ precision.

(** The weight of the last digit kept when [a] is cut to [precision]
    significant digits: the least power of ten [p] with
    [a < limite * p]. *)
Fixpoint escala (fuel : nat) (a p : Z) : Z :=
  match fuel with
  | O => p
  | S f => if a <? limite * p then p else escala f a (10 * p)
  end.

(** [finalise]: round to [precision] significant digits, ties away
    from zero (rounding mode 4, ROUND_HALF_UP). *)
Definition finalise (c : Z) : Z :=
  let a := Z.abs c in
  let p := escala (Z.to_nat (Z.log2 a)) a 1 in
  Z.sgn c * ((a + p / 2) / p * p).

(** [new Prisma.Decimal(0)] *)
Definition zero : t := 0.

(** [x.plus(y)] *)
Definition plus (x y : t) : t := finalise (x + y).

(** [x.times(n)] for an integer [n] *)
Definition times (x : t) (n : Z) : t := finalise (x * n).

End Decimal.

(** ** Schema *)

(** The largest value of an [INTEGER] column. *)
Definition int4_max : Z := 2147483647.

(** Whether an integer is a value of an [INTEGER] column. *)
Definition id_int4 (z : Z) : bool :=
  (- int4_max - 1 <=? z) && (z <=? int4_max).

(** A [DECIMAL(10,2)] column holds amounts of absolute value below
    10^8, that is below 10^10 cents. *)
Definition decimal_10_2_limite : Z := 10 ^ 10.

Definition cabe_decimal_10_2 (d : Decimal.t) : bool :=
  (- decimal_10_2_limite <? d) && (d <? decimal_10_2_limite).

(** Table [clientes] *)
Record Cliente := {
  cliente_id : Z;
  cliente_nome : string;
  metodo_pagamento : string
}.

(** Table [produtos] *)
Record Produto := {
  produto_id : Z;
  produto_nome : string;
  preco : Decimal.t
}.

(** Table [carrinhos], primary key (clienteId, produtoId) *)
Record CarrinhoItem := {
  ci_clienteId : Z;
  ci_produtoId : Z;
  quantidade : Z
}.

(** One element of the JSON array stored in [compras.itens_comprados];
    [preco] goes into the JSON as the decimal it is. *)
Record ItemComprado := {
  ic_id : Z;
  ic_nome : string;
  ic_preco : Decimal.t;
  ic_quantidade : Z
}.

(** Table [compras] *)
Record Compra := {
  compra_id : Z;
  compra_clienteId : Z;
  data : Z;
  valorTotal : Decimal.t;
  itensComprados : list ItemComprado
}.

(** The four tables. *)
Record Db := {
  clientes : list Cliente;
  produtos : list Produto;
  carrinhos : list CarrinhoItem;
  compras : list Compra
}.

(** A cart row together with its product: the result rows of
    [findMany({ include: { produto: true } })]. *)
Record ItemCarrinho := {
  item : CarrinhoItem;
  produto : Produto
}.

(** ** Errors and the transaction monad *)

(** Rejections raised by the database client. *)
Inductive Falha :=
| Indisponivel            (* the database did not answer the call *)
| ForaDoInt4              (* an id of the query is no INTEGER value *)
| InconsistentResult      (* required relation [produto] came back null *)
| NumericOverflow         (* value does not fit DECIMAL(10,2) *)
| ForeignKeyViolation.    (* compras.clienteId has no row in clientes *)

Inductive Erro :=
| Error (message : string)   (* [new Error(message)] thrown by the handler *)
| PrismaError (f : Falha).

(** The text of the client's own errors is the library's; only the
    handler's message below is fixed by the source. *)
Definition falha_message (f : Falha) : string :=
  match f with
  | Indisponivel => "Can't reach database server"
  | ForaDoInt4 =>
      "Unable to fit integer value into an INT4 (32-bit signed integer)"
  | InconsistentResult =>
      "Inconsistent query result: Field produto is required to return data"
  | NumericOverflow => "numeric field overflow"
  | ForeignKeyViolation =>
      "Foreign key constraint violated: compras_clienteId_fkey"
  end.

Definition message (e : Erro) : string :=
  match e with
  | Error m => m
  | PrismaError f => falha_message f
  end.

(** The calls the handler awaits. *)
Inductive Chamada := FindMany | Create | DeleteMany | Commit.

(** What a request does not decide: the clock behind
    [DEFAULT CURRENT_TIMESTAMP], the value the sequence of the [SERIAL]
    column [compras.id] hands out (an id no row has yet; a sequence is
    not rolled back, so it is no part of the tables), and which of the
    calls the database fails to answer (connection lost, timeout). *)
Record Ambiente := {
  agora : Z;
  proximo_id : Z;
  indisponivel : Chamada -> bool
}.

Definition Tx (A : Type) : Type := Db -> (Erro + A) * Db.

Definition ret {A} (a : A) : Tx A := fun db => (inr a, db).

Definition throw {A} (e : Erro) : Tx A := fun db => (inl e, db).

Definition bind {A B} (m : Tx A) (k : A -> Tx B) : Tx B :=
  fun db =>
    match m db with
    | (inr a, db') => k a db'
    | (inl e, db') => (inl e, db')
    end.

Notation "x <- m ;; k" := (bind m (fun x => k))
  (at level 100, m at next level, right associativity).

(** A call that the database may fail to answer. *)
Definition chamada {A} (env : Ambiente) (c : Chamada) (m : Tx A) : Tx A :=
  fun db =>
    if indisponivel env c then (inl (PrismaError Indisponivel), db) else m db.

(** [prisma.$transaction(callback)]: the writes of the callback are kept
    when it returns and the commit goes through, and dropped when it
    throws. *)
Definition transaction {A} (env : Ambiente) (callback : Tx A) (db : Db)
  : (Erro + A) * Db :=
  match callback db with
  | (inr a, db') =>
      if indisponivel env Commit
      then (inl (PrismaError Indisponivel), db)     (* ROLLBACK *)
      else (inr a, db')                             (* COMMIT *)
  | (inl e, _) => (inl e, db)                       (* ROLLBACK *)
  end.

(** ** The Prisma calls of the handler *)

(** [where: { clienteId: clienteId }] *)
Definition do_cliente (clienteId : Z) (r : CarrinhoItem) : bool :=
  ci_clienteId r =? clienteId.

(** The row of [produtos] with primary key [id]. *)
Definition produto_por_id (id : Z) (db : Db) : option Produto :=
  find (fun p => produto_id p =? id) (produtos db).

(** Whether [clientes] has a row with primary key [id]. *)
Definition cliente_existe (id : Z) (db : Db) : bool :=
  existsb (fun c => cliente_id c =? id) (clientes db).

(** [include: { produto: true }]: attach to every row its product; the
    relation is required, a row without product rejects the query. *)
Fixpoint incluir_produto (db : Db) (rows : list CarrinhoItem)
  : Erro + list ItemCarrinho :=
  match rows with
  | [] => inr []
  | r :: rs =>
    match produto_por_id (ci_produtoId r) db with
    | None => inl (PrismaError InconsistentResult)
    | Some p =>
      match incluir_produto db rs with
      | inl e => inl e
      | inr l => inr ({| item := r; produto := p |} :: l)
      end
    end
  end.

(** [tx.carrinhoItem.findMany({ where: { clienteId },
    include: { produto: true } })]: the client refuses an id that is no
    value of the [INTEGER] column [carrinhos.clienteId]. *)
Definition carrinhoItem_findMany (env : Ambiente) (clienteId : Z)
  : Tx (list ItemCarrinho) :=
  chamada env FindMany
    (fun db =>
       (if id_int4 clienteId
        then incluir_produto db (filter (do_cliente clienteId) (carrinhos db))
        else inl (PrismaError ForaDoInt4),
        db)).

(** [tx.compra.create({ data: { clienteId, valorTotal, itensComprados } })]:
    [id] comes from the sequence and [data] from the clock, both in
    the environment;
    [clienteId] must be a value of its [INTEGER] column, [valor_total]
    must fit its column and [clienteId] must reference a row of
    [clientes]. *)
Definition compra_create (env : Ambiente) (clienteId : Z) (total : Decimal.t)
    (itens : list ItemComprado) : Tx Compra :=
  chamada env Create
    (fun db =>
       if negb (id_int4 clienteId) then
         (inl (PrismaError ForaDoInt4), db)
       else if negb (cabe_decimal_10_2 total) then
         (inl (PrismaError NumericOverflow), db)
       else if negb (cliente_existe clienteId db) then
         (inl (PrismaError ForeignKeyViolation), db)
       else
         let novaCompra :=
           {| compra_id := proximo_id env;
              compra_clienteId := clienteId;
              data := agora env;
              valorTotal := total;
              itensComprados := itens |} in
         (inr novaCompra,
          {| clientes := clientes db;
             produtos := produtos db;
             carrinhos := carrinhos db;
             compras := compras db ++ [novaCompra] |})).

(** [tx.carrinhoItem.deleteMany({ where: { clienteId } })], returning the
    number of rows removed; an id that is no [INTEGER] value is refused
    as by [findMany]. *)
Definition carrinhoItem_deleteMany (env : Ambiente) (clienteId : Z) : Tx nat :=
  chamada env DeleteMany
    (fun db =>
       if negb (id_int4 clienteId) then
         (inl (PrismaError ForaDoInt4), db)
       else
         (inr (length (filter (do_cliente clienteId) (carrinhos db))),
          {| clientes := clientes db;
             produtos := produtos db;
             carrinhos :=
               filter (fun r => negb (do_cliente clienteId r)) (carrinhos db);
             compras := compras db |})).

(** ** The handler of POST /simulacao/sair *)

Definition carrinho_vazio : string :=
  "O carrinho está vazio. Nenhuma compra foi realizada.".

(** The object returned by the callback of [itensCarrinho.map]. *)
Definition itemComprado (it : ItemCarrinho) : ItemComprado :=
  {| ic_id := produto_id (produto it);
     ic_nome := produto_nome (produto it);
     ic_preco := preco (produto it);
     ic_quantidade := quantidade (item it) |}.

Definition subtotal (it : ItemCarrinho) : Decimal.t :=
  Decimal.times (preco (produto it)) (quantidade (item it)).

(** One call of the callback of [itensCarrinho.map]: it adds the line's
    subtotal to the captured [valorTotal] and yields the line's copy. *)
Definition passo (acc : Decimal.t * list ItemComprado) (it : ItemCarrinho)
  : Decimal.t * list ItemComprado :=
  (Decimal.plus (fst acc) (subtotal it), snd acc ++ [itemComprado it]).

(** [valorTotal] and [itensComprados] once [map] has visited every line. *)
Definition calcular (itensCarrinho : list ItemCarrinho)
  : Decimal.t * list ItemComprado :=
  fold_left passo itensCarrinho (Decimal.zero, []).

(** The callback given to [prisma.$transaction]. *)
Definition finalizar (env : Ambiente) (clienteId : Z) : Tx Compra :=
  itensCarrinho <- carrinhoItem_findMany env clienteId ;;
  if (length itensCarrinho =? 0)%nat then
    throw (Error carrinho_vazio)
  else
    let '(total, itens) := calcular itensCarrinho in
    novaCompra <- compra_create env clienteId total itens ;;
    _ <- carrinhoItem_deleteMany env clienteId ;;
    ret novaCompra.

(** Response bodies: the purchase row, or a JSON object of string fields. *)
Inductive Corpo :=
| CorpoCompra (c : Compra)
| CorpoObjeto (campos : list (string * string)).

Record Resposta := {
  status : Z;
  corpo : Corpo
}.

(** [router.post('/simulacao/sair', ...)] with [req.body.clienteId] *)
Definition sair (env : Ambiente) (clienteId : Z) (db : Db) : Resposta * Db :=
  match transaction env (finalizar env clienteId) db with
  | (inr compraRealizada, db') =>
      ({| status := 201; corpo := CorpoCompra compraRealizada |}, db')
  | (inl error, db') =>
      ({| status := 400;
          corpo := CorpoObjeto [("error", message error)] |}, db')
  end.

(** ** Well-formed databases

    The column types and foreign keys of the migration, together with
    the two invariants of the data model: a price is not negative, a
    quantity is at least 1 (the default of the column). *)

Definition produto_valido (p : Produto) : bool :=
  (0 <=? preco p) && (preco p <? decimal_10_2_limite).

Definition item_valido (db : Db) (r : CarrinhoItem) : bool :=
  cliente_existe (ci_clienteId r) db
  && match produto_por_id (ci_produtoId r) db with
     | Some _ => true
     | None => false
     end
  && (1 <=? quantidade r) && (quantidade r <=? int4_max).

Definition compra_valida (db : Db) (c : Compra) : bool :=
  cliente_existe (compra_clienteId c) db
  && cabe_decimal_10_2 (valorTotal c).

Definition db_valido (db : Db) : bool :=
  forallb produto_valido (produtos db)
  && forallb (item_valido db) (carrinhos db)
  && forallb (compra_valida db) (compras db).

(** A joined line whose price and quantity are in range. *)
Definition linha_valida (it : ItemCarrinho) : bool :=
  produto_valido (produto it)
  && (1 <=? quantidade (item it)) && (quantidade (item it) <=? int4_max).

(** The sum of unit price times quantity over snapshot lines, in the
    integers (no rounding). *)
Definition soma_exata (itens : list ItemComprado) : Z :=
  fold_right (fun i s => ic_preco i * ic_quantidade i + s) 0 itens.

(** The cart rows of one shopper, as stored. *)
Definition linhas_do_cliente (clienteId : Z) (db : Db) : list CarrinhoItem :=
  filter (do_cliente clienteId) (carrinhos db).

(** [readLines(shopperId)]: the cart read of the engine, the rows of the
    shopper joined with their products; an id that is no [INTEGER] value
    is refused. *)
Definition readLines (clienteId : Z) (db : Db) : Erro + list ItemCarrinho :=
  if id_int4 clienteId
  then incluir_produto db (linhas_do_cliente clienteId db)
  else inl (PrismaError ForaDoInt4).

(** An environment in which every call is answered. *)
Definition disponivel (env : Ambiente) : Prop :=
  forall c, indisponivel env c = false.

(** The environment at time [t] in which every call is answered; the
    sequence hands out [t + 1]. *)
Definition ambiente (t : Z) : Ambiente :=
  {| agora := t; proximo_id := t + 1; indisponivel := fun _ => false |}.

(** The environment at time [t] in which the call [c] is not answered. *)
Definition ambiente_sem (c : Chamada) (t : Z) : Ambiente :=
  {| agora := t;
     proximo_id := t + 1;
     indisponivel := fun x =>
       match c, x with
       | FindMany, FindMany | Create, Create
       | DeleteMany, DeleteMany | Commit, Commit => true
       | _, _ => false
       end |}.

(** The exact total of joined lines. *)
Definition soma_linhas (l : list ItemCarrinho) : Z :=
  soma_exata (map itemComprado l).

(** The response of [res.status(400).json({ error: error.message })]. *)
Definition resposta_erro (e : Erro) : Resposta :=
  {| status := 400; corpo := CorpoObjeto [("error", message e)] |}.

(** The row inserted for the lines [l], and the database once the
    transaction has committed. *)
Definition compra_de (env : Ambiente) (clienteId : Z)
    (l : list ItemCarrinho) : Compra :=
  {| compra_id := proximo_id env;
     compra_clienteId := clienteId;
     data := agora env;
     valorTotal := fst (calcular l);
     itensComprados := snd (calcular l) |}.

Definition db_apos (env : Ambiente) (clienteId : Z) (db : Db)
    (l : list ItemCarrinho) : Db :=
  {| clientes := clientes db;
     produtos := produtos db;
     carrinhos :=
       filter (fun r => negb (do_cliente clienteId r)) (carrinhos db);
     compras := compras db ++ [compra_de env clienteId l] |}.

(** ** The catalog, later

    No route of the backend writes [produtos]; the seed script and the
    administrators of the database do.  [com_produtos] is the database
    with any other catalog, [alterar_preco] the statement
    [UPDATE produtos SET preco = novo WHERE id = id]. *)

Definition com_produtos (ps : list Produto) (db : Db) : Db :=
  {| clientes := clientes db;
     produtos := ps;
     carrinhos := carrinhos db;
     compras := compras db |}.

Definition alterar_preco (id : Z) (novo : Decimal.t) (db : Db) : Db :=
  com_produtos
    (map (fun p => if produto_id p =? id
                   then {| produto_id := produto_id p;
                           produto_nome := produto_nome p;
                           preco := novo |}
                   else p)
         (produtos db))
    db.

(** What the shop may become: any number of requests and of changes of
    the catalog, in any order. *)
Inductive evolui : Db -> Db -> Prop :=
| evolui_nada db : evolui db db
| evolui_sair db db' env clienteId :
    evolui db db' -> evolui db (snd (sair env clienteId db'))
| evolui_catalogo db db' ps :
    evolui db db' -> evolui db (com_produtos ps db').

(** ** The error contract, in the words of the specification

    A failure carries a machine-readable kind, EMPTY_CART, NOT_FOUND or
    INTERNAL, with a client-error status for the first two and a
    server-error status for the third. *)

Fixpoint campo (nome : string) (campos : list (string * string))
  : option string :=
  match campos with
  | [] => None
  | (k, v) :: resto => if String.eqb k nome then Some v else campo nome resto
  end.

(** The property [kind] of a response body. *)
Definition kind (c : Corpo) : option string :=
  match c with
  | CorpoCompra _ => None
  | CorpoObjeto campos => campo "kind" campos
  end.

Definition status_cliente (s : Z) : Prop := 400 <= s < 500.
Definition status_servidor (s : Z) : Prop := 500 <= s < 600.

Definition spec_erro_estruturado (r : Resposta) : Prop :=
  (kind (corpo r) = Some "EMPTY_CART" /\ status_cliente (status r))
  \/ (kind (corpo r) = Some "NOT_FOUND" /\ status_cliente (status r))
  \/ (kind (corpo r) = Some "INTERNAL" /\ status_servidor (status r)).

(** ** Sample data

    The clients and products of the seed script, with the carts the
    front end fills for Liliana (one Camisa de Seda, two Calça Jeans)
    and Moisés. *)

Definition loja : Db :=
  {| clientes :=
       [ {| cliente_id := 1; cliente_nome := "Moisés";
            metodo_pagamento := "credito_final_4242" |};
         {| cliente_id := 2; cliente_nome := "Gabrielle";
            metodo_pagamento := "credito_final_5151" |};
         {| cliente_id := 3; cliente_nome := "Liliana";
            metodo_pagamento := "credito_final_8987" |};
         {| cliente_id := 4; cliente_nome := "Luis";
            metodo_pagamento := "credito_final_3654" |};
         {| cliente_id := 5; cliente_nome := "Pedro";
            metodo_pagamento := "credito_final_7435" |} ];
     produtos :=
       [ {| produto_id := 1; produto_nome := "Camisa de Seda";
            preco := 79990 |};
         {| produto_id := 2; produto_nome := "Calça Jeans";
            preco := 49990 |};
         {| produto_id := 3; produto_nome := "Bermuda Cargo";
            preco := 35000 |};
         {| produto_id := 4; produto_nome := "Camisa Polo";
            preco := 29950 |};
         {| produto_id := 5; produto_nome := "Jaqueta de Couro";
            preco := 125000 |} ];
     carrinhos :=
       [ {| ci_clienteId := 3; ci_produtoId := 1; quantidade := 1 |};
         {| ci_clienteId := 1; ci_produtoId := 2; quantidade := 2 |};
         {| ci_clienteId := 3; ci_produtoId := 2; quantidade := 2 |};
         {| ci_clienteId := 1; ci_produtoId := 5; quantidade := 1 |} ];
     compras := [] |}.

(** Liliana's cart as the joined read returns it. *)
Definition linhas_liliana : list ItemCarrinho :=
  [ {| item := {| ci_clienteId := 3; ci_produtoId := 1; quantidade := 1 |};
       produto := {| produto_id := 1; produto_nome := "Camisa de Seda";
                     preco := 79990 |} |};
    {| item := {| ci_clienteId := 3; ci_produtoId := 2; quantidade := 2 |};
       produto := {| produto_id := 2; produto_nome := "Calça Jeans";
                     preco := 49990 |} |} ].

(** Liliana's purchase at time 0, and the shop after it. *)
Definition compra_liliana : Compra :=
  compra_de (ambiente 0) 3 linhas_liliana.

Definition loja_apos_liliana : Db :=
  db_apos (ambiente 0) 3 loja linhas_liliana.

(** A shop whose one product costs 99999999.99, two of them in the cart
    of its one client. *)
Definition loja_cara : Db :=
  {| clientes :=
       [ {| cliente_id := 1; cliente_nome := "Moisés";
            metodo_pagamento := "credito_final_4242" |} ];
     produtos :=
       [ {| produto_id := 1; produto_nome := "Iate"; preco := 9999999999 |} ];
     carrinhos :=
       [ {| ci_clienteId := 1; ci_produtoId := 1; quantidade := 2 |} ];
     compras := [] |}.

(** A line of 2147483647 units of a product at 99999999.99. *)
Definition linha_grande (id : Z) (nome : string) : ItemCarrinho :=
  {| item := {| ci_clienteId := 1; ci_produtoId := id;
                quantidade := 2147483647 |};
     produto := {| produto_id := id; produto_nome := nome;
                   preco := 9999999999 |} |}.

Definition linhas_grandes : list ItemCarrinho :=
  [linha_grande 1 "Iate"; linha_grande 2 "Jato"; linha_grande 3 "Ilha";
   linha_grande 4 "Castelo"; linha_grande 5 "Vinhedo"].

(** A line of one unit at 0.05. *)
Definition linha_pequena : ItemCarrinho :=
  {| item := {| ci_clienteId := 1; ci_produtoId := 6; quantidade := 1 |};
     produto := {| produto_id := 6; produto_nome := "Bala"; preco := 5 |} |}.

(** The shop of those six products, its one client holding the cart
    [linhas], stored in that order. *)
Definition loja_grande (linhas : list ItemCarrinho) : Db :=
  {| clientes :=
       [ {| cliente_id := 1; cliente_nome := "Moisés";
            metodo_pagamento := "credito_final_4242" |} ];
     produtos := map produto (linhas_grandes ++ [linha_pequena]);
     carrinhos := map item linhas;
     compras := [] |}.

(** ** Requests one after the other *)

(** The server answering the requests [pedidos] in turn, each on the
    database the one before left. *)
Fixpoint atender (pedidos : list (Ambiente * Z)) (db : Db)
  : list Resposta * Db :=
  match pedidos with
  | [] => ([], db)
  | (env, clienteId) :: resto =>
      let '(r, db1) := sair env clienteId db in
      let '(rs, db2) := atender resto db1 in
      (r :: rs, db2)
  end.

(** The purchases that a list of responses carries, in order. *)
Definition compras_respondidas (rs : list Resposta) : list Compra :=
  flat_map (fun r => match corpo r with
                     | CorpoCompra c => [c]
                     | CorpoObjeto _ => []
                     end) rs.

(** Whether a request was the shopper's and got 201. *)
Definition comprou (clienteId : Z) (pr : (Ambiente * Z) * Resposta) : bool :=
  (snd (fst pr) =? clienteId) && (status (snd pr) =? 201).

(** ** The handler of POST /simulacao/entrar *)

(** [prisma.cliente.findUnique({ where: { id: clienteId } })] *)
Definition cliente_findUnique (clienteId : Z) (db : Db) : option Cliente :=
  find (fun c => cliente_id c =? clienteId) (clientes db).

Definition cliente_nao_encontrado : string := "Cliente não encontrado.".

(** The template literal of the greeting. *)
Definition mensagem_entrada (cliente : Cliente) : string :=
  String.append "Cliente "
    (String.append (cliente_nome cliente) " entrou na loja.").

(** Whether [prisma.cliente.findUnique] returns rather than throws: the
    database answers, and the id is a value of the [INTEGER] key
    [clientes.id]; the client refuses to look up any other id. *)
Definition findUnique_retorna (banco : bool) (clienteId : Z) : bool :=
  banco && id_int4 clienteId.

(** [router.post('/simulacao/entrar', ...)] with [req.body.clienteId];
    [responde] tells whether [findUnique] returns (the [catch] runs
    when it throws, see [findUnique_retorna]).  The handler writes
    nothing. *)
Definition entrar (responde : bool) (clienteId : Z) (db : Db) : Resposta :=
  if responde then
    match cliente_findUnique clienteId db with
    | None =>
        {| status := 404;
           corpo := CorpoObjeto [("error", cliente_nao_encontrado)] |}
    | Some cliente =>
        {| status := 200;
           corpo := CorpoObjeto [("status", "sucesso");
                                 ("mensagem", mensagem_entrada cliente)] |}
    end
  else
    {| status := 500;
       corpo := CorpoObjeto
                  [("error", "Erro ao processar a entrada do cliente.")] |}.

(** ** The listing routes GET /clientes and GET /produtos *)

(** The body of a listing: the rows, or the error object. *)
Inductive CorpoLista (A : Type) :=
| CorpoLinhas (linhas : list A)
| CorpoErro (campos : list (string * string)).

Arguments CorpoLinhas {A} linhas.
Arguments CorpoErro {A} campos.

Record RespostaLista (A : Type) := {
  lista_status : Z;
  lista_corpo : CorpoLista A
}.

Arguments lista_status {A} r.
Arguments lista_corpo {A} r.

(** [router.get('/clientes', ...)]: [prisma.cliente.findMany()] and
    [res.json(clientes)], or the [catch]. *)
Definition get_clientes (responde : bool) (db : Db) : RespostaLista Cliente :=
  if responde then
    {| lista_status := 200; lista_corpo := CorpoLinhas (clientes db) |}
  else
    {| lista_status := 500;
       lista_corpo := CorpoErro [("error", "Erro ao buscar clientes.")] |}.

(** [router.get('/produtos', ...)] *)
Definition get_produtos (responde : bool) (db : Db) : RespostaLista Produto :=
  if responde then
    {| lista_status := 200; lista_corpo := CorpoLinhas (produtos db) |}
  else
    {| lista_status := 500;
       lista_corpo := CorpoErro [("error", "Erro ao buscar produtos.")] |}.

(** The rows a listing answered with. *)
Definition linhas_listadas {A} (r : RespostaLista A) : list A :=
  match lista_corpo r with
  | CorpoLinhas linhas => linhas
  | CorpoErro _ => []
  end.

(** ** The seed script

    [main] awaits five [prisma.cliente.create] and one
    [prisma.produto.createMany], outside any transaction.  The model is
    of a run in which the database answers every call. *)

(** The next values of the sequences behind the SERIAL columns
    [clientes.id] and [produtos.id]. *)
Record Sequencias := {
  clientes_id_seq : Z;
  produtos_id_seq : Z
}.

(** [prisma.cliente.create({ data: { nome, metodoPagamento } })], for
    an [id] that no row has: no column of [clientes] but the key is
    unique, the insert then goes through.  The sequence hands out such
    an id as long as it is ahead of the stored ids
    ([sequencia_adiantada] below), which it is when rows are only
    inserted through it; the primary key [clientes_pkey] refuses any
    other id. *)
Definition cliente_create (id : Z) (nome metodoPagamento : string) (db : Db)
  : Db :=
  {| clientes := clientes db
                 ++ [ {| cliente_id := id;
                         cliente_nome := nome;
                         metodo_pagamento := metodoPagamento |} ];
     produtos := produtos db;
     carrinhos := carrinhos db;
     compras := compras db |}.

(** Whether the sequence of [clientes.id] is ahead of every stored id:
    the ids it hands out are then ids that no row has. *)
Definition sequencia_adiantada (seq : Sequencias) (db : Db) : bool :=
  forallb (fun c => cliente_id c <? clientes_id_seq seq) (clientes db).

(** The unique index [produtos_nome_key]. *)
Definition nome_em_uso (nome : string) (ps : list Produto) : bool :=
  existsb (fun p => String.eqb (produto_nome p) nome) ps.

(** The rows of one INSERT, each checked against the rows before it and
    numbered by the sequence; [None] when a row is refused. *)
Fixpoint inserir_produtos (id : Z) (dados : list (string * Decimal.t))
    (ps : list Produto) : option (list Produto) :=
  match dados with
  | [] => Some ps
  | (nome, valor) :: resto =>
      if nome_em_uso nome ps || negb (cabe_decimal_10_2 valor) then None
      else inserir_produtos (id + 1) resto
             (ps ++ [ {| produto_id := id;
                         produto_nome := nome;
                         preco := valor |} ])
  end.

(** [prisma.produto.createMany({ data })]: one statement, which inserts
    every row or, when one is refused, none. *)
Definition produto_createMany (id : Z) (dados : list (string * Decimal.t))
    (db : Db) : option Db :=
  match inserir_produtos id dados (produtos db) with
  | Some ps => Some (com_produtos ps db)
  | None => None
  end.

(** The [data] of [createMany]; the prices in the unit of the column. *)
Definition produtos_do_seed : list (string * Decimal.t) :=
  [ ("Camisa de Seda", 79990);
    ("Calça Jeans", 49990);
    ("Bermuda Cargo", 35000);
    ("Camisa Polo", 29950);
    ("Jaqueta de Couro", 125000) ].

(** [main]: whether the promise resolves, and the database it leaves. *)
Definition main (seq : Sequencias) (db : Db) : bool * Db :=
  let id := clientes_id_seq seq in
  let db1 := cliente_create id "Moisés" "credito_final_4242" db in
  let db2 := cliente_create (id + 1) "Gabrielle" "credito_final_5151" db1 in
  let db3 := cliente_create (id + 2) "Liliana" "credito_final_8987" db2 in
  let db4 := cliente_create (id + 3) "Luis" "credito_final_3654" db3 in
  let db5 := cliente_create (id + 4) "Pedro" "credito_final_7435" db4 in
  match produto_createMany (produtos_id_seq seq) produtos_do_seed db5 with
  | Some db6 => (true, db6)
  | None => (false, db5)
  end.

(** The script: the exit code of the process ([process.exit(1)] in the
    [catch]) and the database it leaves. *)
Definition seed (seq : Sequencias) (db : Db) : Z * Db :=
  let '(resolvido, db') := main seq db in
  (if resolvido then 0 else 1, db').

(** The rows a run of the script is meant to add. *)
Definition clientes_semeados (id : Z) : list Cliente :=
  [ {| cliente_id := id; cliente_nome := "Moisés";
       metodo_pagamento := "credito_final_4242" |};
    {| cliente_id := id + 1; cliente_nome := "Gabrielle";
       metodo_pagamento := "credito_final_5151" |};
    {| cliente_id := id + 2; cliente_nome := "Liliana";
       metodo_pagamento := "credito_final_8987" |};
    {| cliente_id := id + 3; cliente_nome := "Luis";
       metodo_pagamento := "credito_final_3654" |};
    {| cliente_id := id + 4; cliente_nome := "Pedro";
       metodo_pagamento := "credito_final_7435" |} ].


(** Whether none of the names of [dados] is the name of a product. *)
Definition nomes_livres (dados : list (string * Decimal.t)) (db : Db) : bool :=
  forallb (fun d => negb (nome_em_uso (fst d) (produtos db))) dados.




Definition db_so_clientes (seq : Sequencias) (db : Db) : Db :=
  {| clientes := clientes db ++ clientes_semeados (clientes_id_seq seq);
     produtos := produtos db;
     carrinhos := carrinhos db;
     compras := compras db |}.


(** ** The event bus of the phone screen

    [class EventBus]: callbacks are compared by identity
    ([cb !== callback]), which a number stands for; what a callback does
    when it is called is its own business, [emit] is modelled by the
    calls it makes. *)

Module EventBus.

Definition Callback := nat.

(** [this.events]: the own properties of the object, from event name to
    array of callbacks. *)
Definition t := string -> option (list Callback).

(** [constructor()] *)
Definition novo : t := fun _ => None.

(** The names [this.events] answers to from the start, with a value that
    is no array: the properties of [Object.prototype]. *)
Definition herdado (eventName : string) : bool :=
  existsb (String.eqb eventName)
    [ "constructor"; "__proto__"; "hasOwnProperty"; "isPrototypeOf";
      "propertyIsEnumerable"; "toLocaleString"; "toString"; "valueOf";
      "__defineGetter__"; "__defineSetter__";
      "__lookupGetter__"; "__lookupSetter__" ].

(** [this.events[eventName] = cbs] *)
Definition definir (eventName : string) (cbs : list Callback) (bus : t) : t :=
  fun e => if String.eqb e eventName then Some cbs else bus e.

(** The array of an event, empty when the event has none yet. *)
Definition inscritos (eventName : string) (bus : t) : list Callback :=
  match bus eventName with
  | Some cbs => cbs
  | None => []
  end.

(** [subscribe(eventName, callback)]: the bus with the callback pushed;
    [None] is the TypeError of [push] on an inherited property. *)
Definition subscribe (eventName : string) (callback : Callback) (bus : t)
  : option t :=
  if herdado eventName then None
  else Some (definir eventName (inscritos eventName bus ++ [callback]) bus).

(** The function [subscribe] returns; [None] is the TypeError of
    [filter] on an event without array. *)
Definition unsubscribe (eventName : string) (callback : Callback) (bus : t)
  : option t :=
  match bus eventName with
  | Some cbs =>
      Some (definir eventName
              (filter (fun cb => negb (Nat.eqb cb callback)) cbs) bus)
  | None => None
  end.

(** [emit(eventName, data)]: the calls [forEach] makes, in order;
    [None] is the TypeError of [forEach] on an inherited property. *)
Definition emit {D : Type} (eventName : string) (data : D) (bus : t)
  : option (list (Callback * D)) :=
  if herdado eventName then None
  else Some (map (fun cb => (cb, data)) (inscritos eventName bus)).

(** What can be done with a bus: subscribe, call a function that an
    earlier subscribe returned, emit. *)
Inductive Operacao :=
| Subscribe (eventName : string) (callback : Callback)
| Unsubscribe (eventName : string) (callback : Callback)
| Emit (eventName : string).

(** The bus after an operation; one that throws leaves it as it was.
    A callback that uses the bus while [emit] calls it does so through
    these very operations, on the bus and not on the array that
    [forEach] walks. *)
Definition operar (bus : t) (op : Operacao) : t :=
  match op with
  | Subscribe eventName callback =>
      match subscribe eventName callback bus with
      | Some bus' => bus'
      | None => bus
      end
  | Unsubscribe eventName callback =>
      match unsubscribe eventName callback bus with
      | Some bus' => bus'
      | None => bus
      end
  | Emit _ => bus
  end.

Definition executar (ops : list Operacao) (bus : t) : t :=
  fold_left operar ops bus.

End EventBus.

(** ** JSON on the client side

    The values the front ends read from a response.  A [Decimal] and a
    timestamp travel as strings, which are never empty; they are kept
    apart from other strings so that their text need not be spelled
    out. *)

#[warnings="-register-all"]
Inductive Json :=
| JUndefined
| JNull
| JNumber (n : Z)
| JString (s : string)
| JDecimal (d : Decimal.t)
| JDate (t : Z)
| JArray (elems : list Json)
| JObject (campos : list (string * Json)).

(** Whether a value counts as true in [!x], [x || y] and [x && y]. *)
Definition verdadeiro (j : Json) : bool :=
  match j with
  | JUndefined | JNull => false
  | JNumber n => negb (n =? 0)
  | JString s => negb (String.eqb s "")
  | JDecimal _ | JDate _ | JArray _ | JObject _ => true
  end.

(** [a || b] *)
Definition ou (a b : Json) : Json := if verdadeiro a then a else b.

Fixpoint campo_json (nome : string) (campos : list (string * Json)) : Json :=
  match campos with
  | [] => JUndefined
  | (k, v) :: resto =>
      if String.eqb k nome then v else campo_json nome resto
  end.

(** [j?.nome], for the names the front ends read ([id], [nome],
    [produto], [preco], [quantidade], [valorTotal], [itensComprados],
    [mensagem], [error]): no string, number or array has them. *)
Definition membro (nome : string) (j : Json) : Json :=
  match j with
  | JObject campos => campo_json nome campos
  | _ => JUndefined
  end.

(** What [res.json] sends and the client parses back: a line of a
    purchase is the object [{ id, nome, preco, quantidade }] that the
    handler built. *)
Definition json_item (i : ItemComprado) : Json :=
  JObject [ ("id", JNumber (ic_id i));
            ("nome", JString (ic_nome i));
            ("preco", JDecimal (ic_preco i));
            ("quantidade", JNumber (ic_quantidade i)) ].

Definition json_compra (c : Compra) : Json :=
  JObject [ ("id", JNumber (compra_id c));
            ("clienteId", JNumber (compra_clienteId c));
            ("data", JDate (data c));
            ("valorTotal", JDecimal (valorTotal c));
            ("itensComprados", JArray (map json_item (itensComprados c))) ].

Definition json_corpo (c : Corpo) : Json :=
  match c with
  | CorpoCompra compra => json_compra compra
  | CorpoObjeto campos =>
      JObject (map (fun kv => (fst kv, JString (snd kv))) campos)
  end.

(** ** The phone screen [TelaAppCliente] *)

(** [text.includes(sub)] *)
Fixpoint contem (sub s : string) : bool :=
  if String.prefix sub s then true
  else match s with
       | EmptyString => false
       | String _ resto => contem sub resto
       end.

(** What [fetch] resolves with: the status, whether the text of the body
    includes [<!DOCTYPE], and what [JSON.parse] makes of it ([None] when
    it throws). *)
Record RespostaFetch := {
  fetch_status : Z;
  fetch_doctype : bool;
  fetch_json : option Json
}.

(** [makeRequest]: the parsed body, or [None] for the error it throws;
    the argument is [None] when [fetch] itself rejects. *)
Definition makeRequest (resposta : option RespostaFetch) : option Json :=
  match resposta with
  | None => None
  | Some r =>
      if negb ((200 <=? fetch_status r) && (fetch_status r <? 300)) then None
      else if fetch_doctype r then None
      else fetch_json r
  end.

(** The text of a body of the checkout route includes [<!DOCTYPE] when
    one of its strings does: the keys, numbers, decimals and timestamps
    hold no [<]. *)
Definition corpo_com_doctype (c : Corpo) : bool :=
  match c with
  | CorpoCompra compra =>
      existsb (fun i => contem "<!DOCTYPE" (ic_nome i)) (itensComprados compra)
  | CorpoObjeto campos =>
      existsb (fun kv => contem "<!DOCTYPE" (fst kv)
                         || contem "<!DOCTYPE" (snd kv)) campos
  end.

(** The response of the checkout route as [fetch] delivers it. *)
Definition fetch_de (r : Resposta) : RespostaFetch :=
  {| fetch_status := status r;
     fetch_doctype := corpo_com_doctype (corpo r);
     fetch_json := Some (json_corpo (corpo r)) |}.

(** The state of the component; [interfaceState] is written but never
    read and is left out. *)
Record Tela := {
  estadoAtual : string;
  dadosCliente : Json;
  carrinho : Json;
  dadosCompra : Json
}.

(** [{ itens: [] }] *)
Definition carrinho_sem_itens : Json := JObject [("itens", JArray [])].

(** The made-up purchase of the [catch] of [finalizarCompra]; [agora] is
    [new Date()]. *)
Definition dadosSimulados (agora : Z) : Json :=
  JObject [ ("id", JNumber 123);
            ("data", JDate agora);
            ("valorTotal", JString "1259.80");
            ("itensComprados",
             JArray [ JObject [ ("produto",
                                 JObject [ ("nome", JString "Camisa de Seda");
                                           ("preco", JString "799.90") ]);
                                ("quantidade", JNumber 1) ] ]) ].

(** [finalizarCompra], once [makeRequest] has returned [resultado] or
    thrown ([None]). *)
Definition finalizarCompra (agora : Z) (resultado : option Json) (tela : Tela)
  : Tela :=
  if negb (verdadeiro (membro "id" (dadosCliente tela))) then tela
  else
    {| estadoAtual := "recibo";
       dadosCliente := dadosCliente tela;
       carrinho := carrinho_sem_itens;
       dadosCompra := match resultado with
                      | Some r => r
                      | None => dadosSimulados agora
                      end |}.

(** What [Recibo] shows: the order number, the total, and for each line
    the name, the quantity and the price. *)
Definition recibo_pedido (dados : Json) : Json :=
  ou (membro "id" dados) (JString "N/A").

Definition recibo_total (dados : Json) : Json :=
  ou (membro "valorTotal" dados) (JString "0.00").

(** One [item-comprado]; [None] is the TypeError of reading a property
    of [null] or [undefined]. *)
Definition recibo_linha (i : Json) : option (Json * Json * Json) :=
  match i with
  | JUndefined | JNull => None
  | _ =>
      Some (ou (membro "nome" (membro "produto" i)) (JString "Produto"),
            ou (membro "quantidade" i) (JNumber 1),
            ou (membro "preco" (membro "produto" i)) (JString "0.00"))
  end.

Fixpoint todas {A} (l : list (option A)) : option (list A) :=
  match l with
  | [] => Some []
  | None :: _ => None
  | Some a :: resto =>
      match todas resto with
      | Some r => Some (a :: r)
      | None => None
      end
  end.

(** The lines under [Itens Comprados], for purchase data whose
    [itensComprados] is an array or missing, as the route and the
    made-up purchase have it; [None] when the rendering throws or the
    value is of another kind. *)
Definition recibo_itens (dados : Json) : option (list (Json * Json * Json)) :=
  match membro "itensComprados" dados with
  | JArray elems => todas (map recibo_linha elems)
  | JUndefined | JNull => Some []
  | _ => None
  end.

(** ** The simulation screen [App] *)

(** [clienteSelecionadoId]: the empty string at first, then the [id] of
    the first client the API listed, then the value of the chosen
    option, which is the text of a client's [id]. *)
Inductive Selecao :=
| SemSelecao
| IdDaApi (id : Z)
| IdDoSelect (id : Z).

(** [parseInt(clienteSelecionadoId)] behind the guard
    [if (!clienteSelecionadoId) return]. *)
Definition selecionado (s : Selecao) : option Z :=
  match s with
  | SemSelecao => None
  | IdDaApi id => if id =? 0 then None else Some id
  | IdDoSelect id => Some id
  end.

(** A line of the log: a value as it came, or a template literal with
    the values it interpolates. *)
Inductive Parte := Texto (s : string) | Valor (j : Json).

Inductive Mensagem :=
| Simples (j : Json)
| Modelo (partes : list Parte).

Record App := {
  clienteSelecionadoId : Selecao;
  logMessages : list Mensagem;
  clientPosition : option string
}.

(** axios resolves a response whose status is 2xx and rejects any
    other. *)
Definition axios_resolve (r : Resposta) : bool :=
  (200 <=? status r) && (status r <? 300).

(** [error.response?.data?.error || padrao]; no response at all when the
    request did not get through. *)
Definition erro_ou (resposta : option Resposta) (padrao : string) : Json :=
  ou (match resposta with
      | Some r => membro "error" (json_corpo (corpo r))
      | None => JUndefined
      end)
     (JString padrao).

(** [handleEnter], given the response to the request it posts. *)
Definition handleEnter (resposta : Z -> option Resposta) (app : App) : App :=
  match selecionado (clienteSelecionadoId app) with
  | None => app
  | Some clienteId =>
      match resposta clienteId with
      | Some r =>
          if axios_resolve r then
            {| clienteSelecionadoId := clienteSelecionadoId app;
               logMessages :=
                 Simples (membro "mensagem" (json_corpo (corpo r)))
                   :: logMessages app;
               clientPosition := Some "entry" |}
          else
            {| clienteSelecionadoId := clienteSelecionadoId app;
               logMessages :=
                 Simples (erro_ou (Some r) "Erro ao entrar na loja.")
                   :: logMessages app;
               clientPosition := clientPosition app |}
      | None =>
          {| clienteSelecionadoId := clienteSelecionadoId app;
             logMessages :=
               Simples (erro_ou None "Erro ao entrar na loja.")
                 :: logMessages app;
             clientPosition := clientPosition app |}
      end
  end.

(** [handleExit], given the response to the request it posts, up to the
    timeout that takes the ball away. *)
Definition handleExit (resposta : Z -> option Resposta) (app : App) : App :=
  match selecionado (clienteSelecionadoId app) with
  | None => app
  | Some clienteId =>
      match resposta clienteId with
      | Some r =>
          if axios_resolve r then
            let compra := json_corpo (corpo r) in
            {| clienteSelecionadoId := clienteSelecionadoId app;
               logMessages :=
                 Modelo [ Texto "Compra finalizada! Valor total: R$ ";
                          Valor (membro "valorTotal" compra);
                          Texto ". Recibo ID: ";
                          Valor (membro "id" compra);
                          Texto "." ]
                   :: logMessages app;
               clientPosition := Some "exit" |}
          else
            {| clienteSelecionadoId := clienteSelecionadoId app;
               logMessages :=
                 Simples (erro_ou (Some r) "Erro ao sair da loja.")
                   :: logMessages app;
               clientPosition := clientPosition app |}
      | None =>
          {| clienteSelecionadoId := clienteSelecionadoId app;
             logMessages :=
               Simples (erro_ou None "Erro ao sair da loja.")
                 :: logMessages app;
             clientPosition := clientPosition app |}
      end
  end.

(** The backend answering the two requests, when they get through. *)
Definition api_entrar (responde : bool) (db : Db) (clienteId : Z)
  : option Resposta :=
  Some (entrar responde clienteId db).

Definition api_sair (env : Ambiente) (db : Db) (clienteId : Z)
  : option Resposta :=
  Some (fst (sair env clienteId db)).

(** ** Decimal arithmetic within the working precision *)

Module DecimalFacts.
Import Decimal.

Lemma limite_val : limite = 100000000000000000000.
Proof. reflexivity. Qed.

Lemma escala_small fuel a : a < limite -> escala fuel a 1 = 1.
Proof.
  intros Ha. destruct fuel as [|f]; cbn [escala]; [reflexivity|].
  destruct (a <? limite * 1) eqn:E; [reflexivity|].
  apply Z.ltb_ge in E. lia.
Qed.

(** Below [limite] in absolute value nothing is rounded. *)
Lemma finalise_small c : Z.abs c < limite -> finalise c = c.
Proof.
  intros Hc. unfold finalise.
  rewrite (escala_small _ _ Hc).
  change (1 / 2) with 0.
  rewrite Z.add_0_r, Z.div_1_r, Z.mul_1_r.
  rewrite Z.mul_comm. apply Z.abs_sgn.
Qed.

Lemma escala_inv fuel a : forall p,
  0 < p ->
  (p = 1 \/ exists q, p = 10 * q /\ 0 < q /\ limite * q <= a) ->
  let r := escala fuel a p in
  r = 1 \/ exists q, r = 10 * q /\ 0 < q /\ limite * q <= a.
Proof.
  induction fuel as [|f IH]; intros p Hp Hinv; cbn [escala]; [exact Hinv|].
  destruct (a <? limite * p) eqn:E; [exact Hinv|].
  apply Z.ltb_ge in E.
  apply IH; [lia|].
  right. exists p. repeat split; auto.
Qed.

(** The fuel given by [finalise] is enough: the weight found leaves at
    most [precision] digits. *)
Lemma escala_fuel fuel a : forall p,
  0 < p ->
  a < limite * p * 10 ^ Z.of_nat fuel ->
  a < limite * escala fuel a p.
Proof.
  induction fuel as [|f IH]; intros p Hp Ha; cbn [escala].
  - change (10 ^ Z.of_nat 0) with 1 in Ha. lia.
  - destruct (a <? limite * p) eqn:E; [now apply Z.ltb_lt in E|].
    apply IH; [lia|].
    rewrite Nat2Z.inj_succ, Z.pow_succ_r in Ha by lia. lia.
Qed.

Lemma escala_log2 a :
  0 <= a -> a < limite * escala (Z.to_nat (Z.log2 a)) a 1.
Proof.
  intros Ha. pose proof limite_val as L.
  apply escala_fuel; [lia|].
  rewrite Z2Nat.id by apply Z.log2_nonneg.
  destruct (Z.eq_dec a 0) as [->|Hn].
  - change (Z.log2 0) with 0. change (10 ^ 0) with 1. lia.
  - assert (Hpos : 0 < a) by lia.
    destruct (Z.log2_spec a Hpos) as [_ Hhi].
    rewrite Z.pow_succ_r in Hhi by apply Z.log2_nonneg.
    assert (Hle : 2 ^ Z.log2 a <= 10 ^ Z.log2 a)
      by (apply Z.pow_le_mono_l; lia).
    assert (0 < 2 ^ Z.log2 a)
      by (apply Z.pow_pos_nonneg; [lia|apply Z.log2_nonneg]).
    nia.
Qed.

(** [finalise] is rounding to the nearest multiple of the weight [p] of
    the last digit kept: the result is a multiple of [p], at most half
    of [p] away, and [p] is 1 unless the value has more than
    [precision] digits. *)
Lemma finalise_spec c :
  exists p,
    0 < p
    /\ Z.abs c < limite * p
    /\ (p = 1 \/ exists q, p = 10 * q /\ 0 < q /\ limite * q <= Z.abs c)
    /\ (p | finalise c)
    /\ 2 * Z.abs (finalise c - c) <= p.
Proof.
  unfold finalise.
  set (a := Z.abs c).
  assert (Ha : 0 <= a) by apply Z.abs_nonneg.
  pose proof (escala_log2 a Ha) as Hlt.
  pose proof (escala_inv (Z.to_nat (Z.log2 a)) a 1) as Hinv.
  cbv zeta in Hinv.
  set (p := escala (Z.to_nat (Z.log2 a)) a 1) in *.
  specialize (Hinv ltac:(lia) (or_introl eq_refl)).
  assert (Hp : 0 < p) by (destruct Hinv as [->|[q [-> [? _]]]]; lia).
  exists p. repeat split; auto.
  - exists (Z.sgn c * ((a + p / 2) / p)). ring.
  - pose proof (Z.mul_div_le (a + p / 2) p Hp) as Hlo.
    pose proof (Z.mul_succ_div_gt (a + p / 2) p Hp) as Hhi.
    pose proof (Z.mul_div_le p 2 ltac:(lia)) as Hh1.
    pose proof (Z.mul_succ_div_gt p 2 ltac:(lia)) as Hh2.
    set (k := (a + p / 2) / p) in *.
    set (h := p / 2) in *.
    assert (Hk : p * Z.succ k = k * p + p) by ring.
    assert (Hk' : p * k = k * p) by ring.
    assert (Hh : 2 * Z.succ h = 2 * h + 2) by ring.
    rewrite Hk in Hhi. rewrite Hk' in Hlo. rewrite Hh in Hh2.
    destruct (Z.sgn_spec c) as [[Hc Hs] | [[Hc Hs] | [Hc Hs]]]; rewrite Hs.
    + assert (Ea : a = c) by (unfold a; apply Z.abs_eq; lia).
      rewrite Z.mul_1_l. lia.
    + assert (Ea : a = 0) by (unfold a; subst c; reflexivity).
      subst c. lia.
    + assert (Ea : a = - c) by (unfold a; apply Z.abs_neq; lia).
      lia.
Qed.

(** Rounding never brings a value back under [limite]. *)
Lemma finalise_ge c : limite <= c -> limite <= finalise c.
Proof.
  intros Hc. pose proof limite_val as L.
  unfold finalise.
  assert (Hpos : 0 < c) by lia.
  rewrite (Z.abs_eq c) by lia.
  rewrite (Z.sgn_pos c Hpos), Z.mul_1_l.
  destruct (escala_inv (Z.to_nat (Z.log2 c)) c 1) as [H1 | [q [Hq [Hq0 Hle]]]];
    [lia | now left | |].
  - rewrite H1. change (1 / 2) with 0.
    rewrite Z.add_0_r, Z.div_1_r, Z.mul_1_r. exact Hc.
  - rewrite Hq.
    set (p := 10 * q) in *.
    assert (Hp : 0 < p) by (unfold p; lia).
    assert (Hh : 0 <= p / 2) by (apply Z.div_pos; lia).
    pose proof (Z.mul_div_le (c + p / 2) p Hp) as Hlo.
    pose proof (Z.mul_succ_div_gt (c + p / 2) p Hp) as Hhi.
    set (k := (c + p / 2) / p) in *.
    assert (Hk : 10000000000000000000 <= k).
    { destruct (Z_lt_le_dec k 10000000000000000000) as [Hlt|]; [|assumption].
      exfalso. unfold p in *. nia. }
    unfold p. nia.
Qed.

(** A non-negative DECIMAL(10,2) price times a positive INTEGER
    quantity has fewer than [precision] digits. *)
Lemma times_exact x n :
  0 <= x < decimal_10_2_limite -> 1 <= n <= int4_max ->
  times x n = x * n /\ 0 <= x * n < limite.
Proof.
  intros Hx Hn. pose proof limite_val as L.
  unfold decimal_10_2_limite, int4_max in *.
  change (10 ^ 10) with 10000000000 in Hx.
  assert (Hb : 0 <= x * n < limite) by nia.
  split; [|exact Hb].
  unfold times. apply finalise_small. lia.
Qed.

Lemma plus_exact x y :
  0 <= x -> 0 <= y -> x + y < limite -> plus x y = x + y.
Proof.
  intros Hx Hy Hs. unfold plus. apply finalise_small. lia.
Qed.

Lemma plus_ge x y :
  0 <= x -> 0 <= y -> limite <= x + y -> limite <= plus x y.
Proof.
  intros _ _ Hs. unfold plus. now apply finalise_ge.
Qed.

End DecimalFacts.

(** Split a conjunction of booleans held true into its parts. *)
Ltac andb_partes H :=
  repeat (let H' := fresh H in
          apply andb_prop in H; destruct H as [H H']).

(** ** The pass over the cart lines *)

Lemma soma_linhas_cons it l :
  soma_linhas (it :: l)
  = preco (produto it) * quantidade (item it) + soma_linhas l.
Proof. reflexivity. Qed.

Lemma linha_valida_bounds it :
  linha_valida it = true ->
  0 <= preco (produto it) < decimal_10_2_limite
  /\ 1 <= quantidade (item it) <= int4_max.
Proof.
  unfold linha_valida, produto_valido. intros H. andb_partes H.
  repeat match goal with
  | E : (_ <=? _) = true |- _ => apply Z.leb_le in E
  | E : (_ <? _) = true |- _ => apply Z.ltb_lt in E
  end.
  lia.
Qed.

Lemma subtotal_exact it :
  linha_valida it = true ->
  subtotal it = preco (produto it) * quantidade (item it)
  /\ 0 <= subtotal it < Decimal.limite.
Proof.
  intros H. apply linha_valida_bounds in H. destruct H as [Hp Hq].
  unfold subtotal.
  destruct (DecimalFacts.times_exact _ _ Hp Hq) as [E B].
  rewrite E. auto.
Qed.

Lemma soma_linhas_nonneg l :
  Forall (fun it => linha_valida it = true) l -> 0 <= soma_linhas l.
Proof.
  induction 1 as [|it l Hit _ IH]; [reflexivity|].
  rewrite soma_linhas_cons.
  apply linha_valida_bounds in Hit. nia.
Qed.

(** Every line is visited, in order: the snapshot is the image of the
    lines. *)
Lemma fold_passo_snd l : forall acc,
  snd (fold_left passo l acc) = snd acc ++ map itemComprado l.
Proof.
  induction l as [|it l IH]; intros acc; simpl.
  - now rewrite app_nil_r.
  - rewrite IH. simpl. now rewrite <- app_assoc.
Qed.

Lemma calcular_itens l : snd (calcular l) = map itemComprado l.
Proof. unfold calcular. now rewrite fold_passo_snd. Qed.

(** While the running total stays under the working precision, the
    accumulated [valorTotal] is the exact sum. *)
Lemma fold_passo_fst_exact l :
  Forall (fun it => linha_valida it = true) l ->
  forall acc,
    0 <= fst acc ->
    fst acc + soma_linhas l < Decimal.limite ->
    fst (fold_left passo l acc) = fst acc + soma_linhas l.
Proof.
  induction 1 as [|it l Hit Hl IH]; intros acc H0 Hlt; cbn [fold_left].
  - unfold soma_linhas. simpl. lia.
  - rewrite soma_linhas_cons in Hlt |- *.
    pose proof (soma_linhas_nonneg l Hl) as Hs.
    destruct (subtotal_exact it Hit) as [E B].
    assert (P : fst (passo acc it) = fst acc + subtotal it)
      by (apply DecimalFacts.plus_exact; lia).
    rewrite IH; rewrite P; lia.
Qed.

(** Once the exact total reaches the working precision, so does the
    accumulated one, whatever was rounded on the way. *)
Lemma fold_passo_fst_ge l :
  Forall (fun it => linha_valida it = true) l ->
  forall acc,
    0 <= fst acc ->
    Decimal.limite <= fst acc + soma_linhas l ->
    Decimal.limite <= fst (fold_left passo l acc).
Proof.
  induction 1 as [|it l Hit Hl IH]; intros acc H0 Hge; cbn [fold_left].
  - unfold soma_linhas in Hge. simpl in Hge. lia.
  - rewrite soma_linhas_cons in Hge.
    pose proof (soma_linhas_nonneg l Hl) as Hs.
    destruct (subtotal_exact it Hit) as [E B].
    pose proof DecimalFacts.limite_val as L.
    destruct (Z_lt_le_dec (fst acc + subtotal it) Decimal.limite) as [Hlt|Hle].
    + assert (P : fst (passo acc it) = fst acc + subtotal it)
        by (apply DecimalFacts.plus_exact; lia).
      apply IH; rewrite P; lia.
    + assert (P : Decimal.limite <= fst (passo acc it))
        by (apply DecimalFacts.plus_ge; lia).
      apply IH; lia.
Qed.

Lemma calcular_exact l :
  Forall (fun it => linha_valida it = true) l ->
  soma_linhas l < Decimal.limite ->
  calcular l = (soma_linhas l, map itemComprado l).
Proof.
  intros Hl Hlt.
  rewrite (surjective_pairing (calcular l)), calcular_itens.
  f_equal. unfold calcular.
  rewrite fold_passo_fst_exact; auto; unfold Decimal.zero; cbn [fst]; lia.
Qed.

Lemma calcular_ge l :
  Forall (fun it => linha_valida it = true) l ->
  Decimal.limite <= soma_linhas l ->
  Decimal.limite <= fst (calcular l).
Proof.
  intros Hl Hge. unfold calcular.
  apply fold_passo_fst_ge; auto; unfold Decimal.zero; cbn [fst]; lia.
Qed.

(** The total that reaches [compra.create] fits the column exactly when
    the exact total does, and is then equal to it. *)
Lemma calcular_cabe l :
  Forall (fun it => linha_valida it = true) l ->
  if soma_linhas l <? decimal_10_2_limite
  then calcular l = (soma_linhas l, map itemComprado l)
       /\ cabe_decimal_10_2 (soma_linhas l) = true
  else cabe_decimal_10_2 (fst (calcular l)) = false.
Proof.
  intros Hl. pose proof DecimalFacts.limite_val as L.
  pose proof (soma_linhas_nonneg l Hl) as Hs.
  assert (D : decimal_10_2_limite = 10000000000) by reflexivity.
  destruct (soma_linhas l <? decimal_10_2_limite) eqn:E.
  - apply Z.ltb_lt in E. split.
    + apply calcular_exact; auto. lia.
    + unfold cabe_decimal_10_2. apply andb_true_intro.
      split; apply Z.ltb_lt; lia.
  - apply Z.ltb_ge in E.
    unfold cabe_decimal_10_2. apply andb_false_intro2. apply Z.ltb_ge.
    destruct (Z_lt_le_dec (soma_linhas l) Decimal.limite) as [Hlt|Hle].
    + rewrite calcular_exact; auto.
    + pose proof (calcular_ge l Hl Hle). lia.
Qed.

(** ** The joined read *)

Lemma incluir_produto_item db rows : forall l,
  incluir_produto db rows = inr l -> map item l = rows.
Proof.
  induction rows as [|r rs IH]; intros l H; simpl in H.
  - now inversion H.
  - destruct (produto_por_id (ci_produtoId r) db) as [p|]; [|discriminate].
    destruct (incluir_produto db rs) as [e|l']; [discriminate|].
    inversion H; subst; simpl. now rewrite (IH l').
Qed.

Lemma readLines_eq clienteId db :
  id_int4 clienteId = true ->
  readLines clienteId db = incluir_produto db (linhas_do_cliente clienteId db).
Proof. intros I. unfold readLines. now rewrite I. Qed.

(** A read that returns lines was of an id within [INTEGER]. *)
Lemma readLines_int4 clienteId db l :
  readLines clienteId db = inr l -> id_int4 clienteId = true.
Proof.
  unfold readLines. destruct (id_int4 clienteId); [reflexivity|discriminate].
Qed.

Lemma readLines_fora clienteId db :
  id_int4 clienteId = false ->
  readLines clienteId db = inl (PrismaError ForaDoInt4).
Proof. intros I. unfold readLines. now rewrite I. Qed.

(** Facts of a well-formed database: its column types and foreign keys
    at work. *)
Section BemFormado.

Variable db : Db.
Hypothesis db_ok : db_valido db = true.

Lemma db_valido_parts :
  forallb produto_valido (produtos db) = true
  /\ Forall (fun r => item_valido db r = true) (carrinhos db)
  /\ Forall (fun c => compra_valida db c = true) (compras db).
Proof.
  pose proof db_ok as H. unfold db_valido in H. andb_partes H.
  repeat split; [assumption| |]; apply Forall_forall;
    now apply forallb_forall.
Qed.

Lemma produto_por_id_valido id p :
  produto_por_id id db = Some p -> produto_valido p = true.
Proof.
  intros Hf. apply find_some in Hf. destruct Hf as [Hin _].
  destruct db_valido_parts as [Hall _].
  rewrite forallb_forall in Hall. now apply Hall.
Qed.

(** The join never fails and yields lines in range. *)
Lemma incluir_produto_valido rows :
  Forall (fun r => item_valido db r = true) rows ->
  exists l, incluir_produto db rows = inr l
    /\ Forall (fun it => linha_valida it = true) l.
Proof.
  induction 1 as [|r rs Hr _ [l [IH1 IH2]]]; simpl.
  - exists []. split; [reflexivity|constructor].
  - unfold item_valido in Hr. andb_partes Hr.
    destruct (produto_por_id (ci_produtoId r) db) as [p|] eqn:E;
      [|discriminate].
    rewrite IH1. eexists. split; [reflexivity|].
    constructor; [|exact IH2].
    unfold linha_valida; simpl.
    rewrite (produto_por_id_valido _ p E).
    now repeat (apply andb_true_intro; split).
Qed.

Lemma linhas_do_cliente_valido clienteId :
  Forall (fun r => item_valido db r = true) (linhas_do_cliente clienteId db).
Proof.
  destruct db_valido_parts as [_ [Hi _]].
  unfold linhas_do_cliente.
  rewrite Forall_forall in Hi |- *.
  intros r Hr. apply filter_In in Hr. now apply Hi.
Qed.

Lemma readLines_valido clienteId :
  id_int4 clienteId = true ->
  exists l, readLines clienteId db = inr l
    /\ map item l = linhas_do_cliente clienteId db
    /\ Forall (fun it => linha_valida it = true) l.
Proof.
  intros I.
  destruct (incluir_produto_valido (linhas_do_cliente clienteId db))
    as [l [E V]]; [apply linhas_do_cliente_valido|].
  exists l. rewrite (readLines_eq _ _ I). repeat split; auto.
  now apply (incluir_produto_item db).
Qed.

(** Foreign key [carrinhos_clienteId_fkey]: only rows of [clientes] own
    cart lines. *)
Lemma sem_cliente_sem_linhas clienteId :
  cliente_existe clienteId db = false ->
  linhas_do_cliente clienteId db = [].
Proof.
  intros Hno.
  pose proof (linhas_do_cliente_valido clienteId) as V.
  destruct (linhas_do_cliente clienteId db) as [|r rs] eqn:E; [reflexivity|].
  exfalso.
  assert (Hin : In r (linhas_do_cliente clienteId db)) by (rewrite E; now left).
  unfold linhas_do_cliente in Hin. apply filter_In in Hin.
  destruct Hin as [_ Hc].
  unfold do_cliente in Hc. apply Z.eqb_eq in Hc.
  inversion V as [|? ? Hr _]; subst.
  unfold item_valido in Hr. andb_partes Hr.
  congruence.
Qed.

Lemma com_linhas_com_cliente clienteId :
  linhas_do_cliente clienteId db <> [] ->
  cliente_existe clienteId db = true.
Proof.
  intros Hne.
  destruct (cliente_existe clienteId db) eqn:E; [reflexivity|].
  now rewrite (sem_cliente_sem_linhas clienteId E) in Hne.
Qed.

End BemFormado.

(** ** What one request does *)

Lemma carrinhoItem_findMany_eq env clienteId db :
  carrinhoItem_findMany env clienteId db
  = if indisponivel env FindMany
    then (inl (PrismaError Indisponivel), db)
    else (readLines clienteId db, db).
Proof. reflexivity. Qed.

(** The request, path by path. *)
Lemma sair_eq env clienteId db :
  sair env clienteId db =
  if indisponivel env FindMany then
    (resposta_erro (PrismaError Indisponivel), db)
  else
    match readLines clienteId db with
    | inl e => (resposta_erro e, db)
    | inr l =>
      if (length l =? 0)%nat then (resposta_erro (Error carrinho_vazio), db)
      else if indisponivel env Create then
        (resposta_erro (PrismaError Indisponivel), db)
      else if negb (cabe_decimal_10_2 (fst (calcular l))) then
        (resposta_erro (PrismaError NumericOverflow), db)
      else if negb (cliente_existe clienteId db) then
        (resposta_erro (PrismaError ForeignKeyViolation), db)
      else if indisponivel env DeleteMany then
        (resposta_erro (PrismaError Indisponivel), db)
      else if indisponivel env Commit then
        (resposta_erro (PrismaError Indisponivel), db)
      else
        ({| status := 201;
            corpo := CorpoCompra (compra_de env clienteId l) |},
         db_apos env clienteId db l)
    end.
Proof.
  unfold sair, transaction, finalizar, bind.
  rewrite carrinhoItem_findMany_eq.
  destruct (indisponivel env FindMany); [reflexivity|].
  destruct (readLines clienteId db) as [e|l] eqn:R; [reflexivity|].
  apply readLines_int4 in R.
  destruct (length l =? 0)%nat; [reflexivity|].
  unfold db_apos, compra_de, compra_create, carrinhoItem_deleteMany, chamada.
  rewrite R. cbn [negb].
  destruct (calcular l) as [total itens]. cbn [fst snd].
  destruct (indisponivel env Create); [reflexivity|].
  destruct (negb (cabe_decimal_10_2 total)); [reflexivity|].
  destruct (negb (cliente_existe clienteId db)); [reflexivity|].
  destruct (indisponivel env DeleteMany); [reflexivity|].
  cbn [ret].
  destruct (indisponivel env Commit); reflexivity.
Qed.

(** Every request fails with the database as it was, or commits the
    purchase of the lines it read. *)
Lemma sair_casos env clienteId db :
  (exists e, sair env clienteId db = (resposta_erro e, db))
  \/ (exists l,
        readLines clienteId db = inr l /\ l <> []
        /\ disponivel env
        /\ cabe_decimal_10_2 (fst (calcular l)) = true
        /\ cliente_existe clienteId db = true
        /\ sair env clienteId db
           = ({| status := 201;
                 corpo := CorpoCompra (compra_de env clienteId l) |},
              db_apos env clienteId db l)).
Proof.
  rewrite sair_eq.
  destruct (indisponivel env FindMany) eqn:D1;
    [left; eexists; reflexivity|].
  destruct (readLines clienteId db) as [e|l];
    [left; eexists; reflexivity|].
  destruct l as [|it l]; [left; eexists; reflexivity|].
  cbn [length Nat.eqb].
  destruct (indisponivel env Create) eqn:D2;
    [left; eexists; reflexivity|].
  destruct (cabe_decimal_10_2 (fst (calcular (it :: l)))) eqn:Ec;
    cbn [negb]; [|left; eexists; reflexivity].
  destruct (cliente_existe clienteId db) eqn:Ee;
    cbn [negb]; [|left; eexists; reflexivity].
  destruct (indisponivel env DeleteMany) eqn:D3;
    [left; eexists; reflexivity|].
  destruct (indisponivel env Commit) eqn:D4;
    [left; eexists; reflexivity|].
  right. exists (it :: l). repeat split; auto; try discriminate.
  intros []; assumption.
Qed.

(** The handler has two statuses. *)
Lemma sair_status env clienteId db :
  status (fst (sair env clienteId db)) = 201
  \/ status (fst (sair env clienteId db)) = 400.
Proof.
  destruct (sair_casos env clienteId db)
    as [[e E] | [l [_ [_ [_ [_ [_ E]]]]]]]; rewrite E; [right|left];
    reflexivity.
Qed.

(** The purchase ledger only grows, and what it held stays in front. *)
Lemma sair_compras env clienteId db :
  exists novas, compras (snd (sair env clienteId db)) = compras db ++ novas.
Proof.
  destruct (sair_casos env clienteId db)
    as [[e E] | [l [_ [_ [_ [_ [_ E]]]]]]]; rewrite E; cbn [snd].
  - exists []. now rewrite app_nil_r.
  - eexists. reflexivity.
Qed.

(** The ledger is append-only through everything the shop goes
    through. *)
Lemma evolui_compras db db' :
  evolui db db' -> exists novas, compras db' = compras db ++ novas.
Proof.
  induction 1 as [db | db db' env clienteId _ [n IH] | db db' ps _ [n IH]].
  - exists []. now rewrite app_nil_r.
  - destruct (sair_compras env clienteId db') as [m Hm].
    exists (n ++ m). now rewrite Hm, IH, app_assoc.
  - exists n. exact IH.
Qed.

(** [$transaction] is all or nothing, whatever the callback. *)
Lemma transaction_atomic {A} env (callback : Tx A) db :
  (exists a db', callback db = (inr a, db')
                 /\ transaction env callback db = (inr a, db'))
  \/ (exists e, transaction env callback db = (inl e, db)).
Proof.
  unfold transaction.
  destruct (callback db) as [[e|a] db']; [right; eauto|].
  destruct (indisponivel env Commit); [right|left]; eauto.
Qed.

Lemma sair_carrinho_vazio env clienteId db :
  id_int4 clienteId = true ->
  indisponivel env FindMany = false ->
  linhas_do_cliente clienteId db = [] ->
  sair env clienteId db = (resposta_erro (Error carrinho_vazio), db).
Proof.
  intros I D H. rewrite sair_eq, D, (readLines_eq _ _ I), H. reflexivity.
Qed.

(** An id that is no [INTEGER] value is refused by the read, when the
    database answers it. *)
Lemma sair_fora_do_int4 env clienteId db :
  id_int4 clienteId = false ->
  indisponivel env FindMany = false ->
  sair env clienteId db = (resposta_erro (PrismaError ForaDoInt4), db).
Proof.
  intros I D. rewrite sair_eq, D, (readLines_fora _ _ I). reflexivity.
Qed.

Lemma filter_do_cliente_apos clienteId (rows : list CarrinhoItem) :
  filter (do_cliente clienteId)
         (filter (fun r => negb (do_cliente clienteId r)) rows) = [].
Proof.
  induction rows as [|r rs IH]; [reflexivity|]. simpl.
  destruct (do_cliente clienteId r) eqn:E; simpl; [exact IH|].
  now rewrite E.
Qed.

Lemma readLines_apos env clienteId db l :
  id_int4 clienteId = true ->
  readLines clienteId (db_apos env clienteId db l) = inr [].
Proof.
  intros I. rewrite (readLines_eq _ _ I).
  unfold linhas_do_cliente, db_apos. cbn [carrinhos].
  now rewrite filter_do_cliente_apos.
Qed.

(** A committed purchase, for a cart whose exact total fits
    [valor_total]. *)
Lemma sair_sucesso env clienteId db l :
  disponivel env ->
  db_valido db = true ->
  readLines clienteId db = inr l ->
  l <> [] ->
  soma_linhas l < decimal_10_2_limite ->
  calcular l = (soma_linhas l, map itemComprado l)
  /\ sair env clienteId db
     = ({| status := 201;
           corpo := CorpoCompra (compra_de env clienteId l) |},
        db_apos env clienteId db l).
Proof.
  intros Hd Hv Hr Hne Hlt.
  destruct (readLines_valido db Hv clienteId (readLines_int4 _ _ _ Hr))
    as [l0 [Hr0 [Hit Hl]]].
  rewrite Hr in Hr0. inversion Hr0; subst l0. clear Hr0.
  pose proof (calcular_cabe l Hl) as Hc.
  apply Z.ltb_lt in Hlt. rewrite Hlt in Hc. destruct Hc as [Hc Hfit].
  split; [exact Hc|].
  assert (Hcli : cliente_existe clienteId db = true).
  { apply com_linhas_com_cliente; [exact Hv|].
    rewrite <- Hit. destruct l; [contradiction|discriminate]. }
  rewrite sair_eq, !Hd, Hr, Hc. cbn [fst]. rewrite Hfit, Hcli.
  destruct l; [contradiction|reflexivity].
Qed.

(** A cart whose exact total does not fit [valor_total] is refused by
    the insert, and nothing is written. *)
Lemma sair_overflow env clienteId db l :
  disponivel env ->
  db_valido db = true ->
  readLines clienteId db = inr l ->
  l <> [] ->
  decimal_10_2_limite <= soma_linhas l ->
  sair env clienteId db = (resposta_erro (PrismaError NumericOverflow), db).
Proof.
  intros Hd Hv Hr Hne Hge.
  destruct (readLines_valido db Hv clienteId (readLines_int4 _ _ _ Hr))
    as [l0 [Hr0 [_ Hl]]].
  rewrite Hr in Hr0. inversion Hr0; subst l0. clear Hr0.
  pose proof (calcular_cabe l Hl) as Hc.
  apply Z.ltb_ge in Hge. rewrite Hge in Hc.
  rewrite sair_eq, !Hd, Hr, Hc.
  destruct l; [contradiction|reflexivity].
Qed.

(** Without [$transaction] the callback is not all or nothing: when the
    database fails to answer [deleteMany], the purchase is already in
    the working copy and the cart is still full. *)
Example finalizar_sem_transaction :
  let env := ambiente_sem DeleteMany 0 in
  fst (finalizar env 3 loja) = inl (PrismaError Indisponivel)
  /\ length (compras (snd (finalizar env 3 loja))) = 1%nat
  /\ linhas_do_cliente 3 (snd (finalizar env 3 loja))
     = linhas_do_cliente 3 loja
  /\ sair env 3 loja = (resposta_erro (PrismaError Indisponivel), loja).
Proof. repeat split. Qed.

(** The cart rows of one shopper and the rows of the others make up the
    whole table. *)
Lemma carrinhos_particao clienteId (rows : list CarrinhoItem) :
  Permutation rows
    (filter (do_cliente clienteId) rows
     ++ filter (fun x => negb (do_cliente clienteId x)) rows).
Proof.
  induction rows as [|r rows IH]; simpl; [apply perm_nil|].
  destruct (do_cliente clienteId r); simpl.
  - apply perm_skip, IH.
  - apply Permutation_cons_app, IH.
Qed.

Lemma soma_linhas_app l1 l2 :
  soma_linhas (l1 ++ l2) = soma_linhas l1 + soma_linhas l2.
Proof.
  induction l1 as [|it l1 IH]; [reflexivity|].
  simpl app. rewrite !soma_linhas_cons, IH. lia.
Qed.

Lemma soma_linhas_perm l l' :
  Permutation l l' -> soma_linhas l = soma_linhas l'.
Proof.
  induction 1 as [|it l l' _ IH|a b l|l l' l'' _ IH1 _ IH2].
  - reflexivity.
  - rewrite !soma_linhas_cons. lia.
  - rewrite !soma_linhas_cons. lia.
  - congruence.
Qed.

(** ** Well-formedness is kept by the request *)

Lemma item_valido_ext db db' r :
  clientes db' = clientes db -> produtos db' = produtos db ->
  item_valido db' r = item_valido db r.
Proof.
  intros Hc Hp.
  unfold item_valido, cliente_existe, produto_por_id.
  now rewrite Hc, Hp.
Qed.

Lemma db_apos_valido env clienteId db l :
  db_valido db = true ->
  cabe_decimal_10_2 (fst (calcular l)) = true ->
  cliente_existe clienteId db = true ->
  db_valido (db_apos env clienteId db l) = true.
Proof.
  intros Hv Hfit Hcli.
  destruct (db_valido_parts db Hv) as [Hp [Hi Hc]].
  unfold db_valido.
  apply andb_true_intro; split; [apply andb_true_intro; split|].
  - exact Hp.
  - apply forallb_forall. intros r Hr.
    cbn [db_apos carrinhos] in Hr. apply filter_In in Hr. destruct Hr as [Hr _].
    rewrite (item_valido_ext db _ r) by reflexivity.
    rewrite Forall_forall in Hi. now apply Hi.
  - apply forallb_forall. intros c Hin.
    cbn [db_apos compras] in Hin. apply in_app_or in Hin.
    unfold compra_valida.
    change (cliente_existe (compra_clienteId c) (db_apos env clienteId db l))
      with (cliente_existe (compra_clienteId c) db).
    destruct Hin as [Hin | [Hin | []]].
    + rewrite Forall_forall in Hc. exact (Hc c Hin).
    + subst c. cbn [compra_de compra_clienteId valorTotal].
      now rewrite Hcli, Hfit.
Qed.

Lemma sair_db_valido env clienteId db :
  db_valido db = true ->
  db_valido (snd (sair env clienteId db)) = true.
Proof.
  intros Hv.
  destruct (sair_casos env clienteId db)
    as [[e E] | [l [_ [_ [_ [Hfit [Hcli E]]]]]]]; rewrite E; cbn [snd].
  - exact Hv.
  - now apply db_apos_valido.
Qed.

(** Two requests one after the other: the second finds the cart the
    first one cleared. *)
Lemma sair_duas_vezes env env' clienteId db r db' :
  sair env clienteId db = (r, db') ->
  status r = 201 ->
  indisponivel env' FindMany = false ->
  sair env' clienteId db' = (resposta_erro (Error carrinho_vazio), db').
Proof.
  intros E Hs D.
  destruct (sair_casos env clienteId db)
    as [[e E'] | [l [Hr [_ [_ [_ [_ E']]]]]]]; rewrite E' in E;
    inversion E; subst.
  - discriminate.
  - rewrite sair_eq, D,
      (readLines_apos _ _ _ _ (readLines_int4 _ _ _ Hr)).
    reflexivity.
Qed.

(** ** The total of a purchase *)

(** C1 (as amended). For every non-empty cart of a well-formed database
    whose exact sum of unit price times quantity fits the column
    [valor_total] (it is below 100000000.00), the request, when the
    database answers its calls, answers 201 with a purchase whose lines
    are the snapshot of the cart lines and whose total is the exact sum
    of unit price times quantity over those snapshot lines. *)
Theorem sair_total_exato env clienteId db l :
  disponivel env ->
  db_valido db = true ->
  readLines clienteId db = inr l ->
  l <> [] ->
  soma_linhas l < decimal_10_2_limite ->
  exists c db',
    sair env clienteId db
    = ({| status := 201; corpo := CorpoCompra c |}, db')
    /\ itensComprados c = map itemComprado l
    /\ valorTotal c = soma_exata (itensComprados c).
Proof.
  intros Hd Hv Hr Hne Hlt.
  destruct (sair_sucesso env clienteId db l Hd Hv Hr Hne Hlt) as [Hc E].
  exists (compra_de env clienteId l), (db_apos env clienteId db l).
  split; [exact E|].
  unfold compra_de. cbn [itensComprados valorTotal]. rewrite Hc.
  split; reflexivity.
Qed.

(** One Camisa de Seda at 799.90 and two Calça Jeans at 499.90. *)
Lemma sair_total_exato_liliana :
  disponivel (ambiente 0)
  /\ db_valido loja = true
  /\ readLines 3 loja = inr linhas_liliana
  /\ linhas_liliana <> []
  /\ soma_linhas linhas_liliana < decimal_10_2_limite
  /\ exists c db',
       sair (ambiente 0) 3 loja
       = ({| status := 201; corpo := CorpoCompra c |}, db')
       /\ itensComprados c = map itemComprado linhas_liliana
       /\ valorTotal c = soma_exata (itensComprados c).
Proof.
  assert (H0 : disponivel (ambiente 0)) by (intros c; reflexivity).
  assert (H1 : db_valido loja = true) by reflexivity.
  assert (H2 : readLines 3 loja = inr linhas_liliana) by reflexivity.
  assert (H3 : linhas_liliana <> []) by discriminate.
  assert (H4 : soma_linhas linhas_liliana < decimal_10_2_limite)
    by reflexivity.
  repeat (split; [assumption|]).
  exact (sair_total_exato (ambiente 0) 3 loja linhas_liliana H0 H1 H2 H3 H4).
Defined.

(** The scenario of the specification: the total is 1799.70 and both
    lines keep their prices. *)
Example cenario_total_1799_70 :
  exists c db',
    sair (ambiente 0) 3 loja
    = ({| status := 201; corpo := CorpoCompra c |}, db')
    /\ valorTotal c = 179970
    /\ map ic_preco (itensComprados c) = [79990; 49990]
    /\ map ic_quantidade (itensComprados c) = [1; 2].
Proof.
  exists compra_liliana, loja_apos_liliana.
  repeat split.
Qed.

(** C1 as stated fails at the cart of two items at 99999999.99, a
    non-empty cart of a well-formed database whose calls are all
    answered: its total 199999999.98 does not fit
    [valor_total DECIMAL(10,2)], the insert is refused and the request
    answers 400 with no purchase. *)
Lemma sair_total_exato_contraexemplo :
  disponivel (ambiente 0)
  /\ db_valido loja_cara = true
  /\ linhas_do_cliente 1 loja_cara <> []
  /\ sair (ambiente 0) 1 loja_cara
     = (resposta_erro (PrismaError NumericOverflow), loja_cara)
  /\ ~ (exists c db',
          sair (ambiente 0) 1 loja_cara
          = ({| status := 201; corpo := CorpoCompra c |}, db')
          /\ valorTotal c = soma_exata (itensComprados c)).
Proof.
  assert (E : sair (ambiente 0) 1 loja_cara
              = (resposta_erro (PrismaError NumericOverflow), loja_cara))
    by reflexivity.
  split; [intros ch; reflexivity|].
  split; [reflexivity|].
  split; [discriminate|].
  split; [exact E|].
  intros [c [db' [E' _]]]. rewrite E in E'. discriminate.
Qed.

(** ** The empty cart *)

(** C2. When the cart read returns no line, the request fails with the
    empty-cart error, and the database, so the cart table and the
    purchase ledger, is what it was. *)
Theorem sair_carrinho_vazio_sem_efeito env clienteId db :
  fst (carrinhoItem_findMany env clienteId db) = inr [] ->
  sair env clienteId db
  = ({| status := 400; corpo := CorpoObjeto [("error", carrinho_vazio)] |}, db)
  /\ carrinhos (snd (sair env clienteId db)) = carrinhos db
  /\ compras (snd (sair env clienteId db)) = compras db.
Proof.
  intros H. rewrite carrinhoItem_findMany_eq in H.
  assert (E : sair env clienteId db
              = (resposta_erro (Error carrinho_vazio), db)).
  { rewrite sair_eq.
    destruct (indisponivel env FindMany); [discriminate|].
    cbn [fst] in H. rewrite H. reflexivity. }
  rewrite E. repeat split.
Qed.

Lemma sair_carrinho_vazio_gabrielle :
  fst (carrinhoItem_findMany (ambiente 0) 2 loja) = inr []
  /\ sair (ambiente 0) 2 loja
     = ({| status := 400; corpo := CorpoObjeto [("error", carrinho_vazio)] |},
        loja)
  /\ carrinhos (snd (sair (ambiente 0) 2 loja)) = carrinhos loja
  /\ compras (snd (sair (ambiente 0) 2 loja)) = compras loja.
Proof.
  split; [reflexivity|].
  exact (sair_carrinho_vazio_sem_efeito (ambiente 0) 2 loja eq_refl).
Defined.

(** ** All or nothing *)

(** C3. Every request either commits both writes, one purchase appended
    to the ledger and exactly the shopper's cart rows removed (the
    other rows, the clients and the catalog untouched), or fails with
    the database exactly as it was, so that a later read of the cart
    and a later request see what they would have seen before. *)
Theorem sair_atomico env clienteId db :
  let (r, db') := sair env clienteId db in
  (exists c,
      r = {| status := 201; corpo := CorpoCompra c |}
      /\ compras db' = compras db ++ [c]
      /\ carrinhos db'
         = filter (fun x => negb (do_cliente clienteId x)) (carrinhos db)
      /\ Permutation (carrinhos db)
                     (linhas_do_cliente clienteId db ++ carrinhos db')
      /\ clientes db' = clientes db
      /\ produtos db' = produtos db)
  \/ (status r = 400
      /\ db' = db
      /\ readLines clienteId db' = readLines clienteId db
      /\ forall env', sair env' clienteId db' = sair env' clienteId db).
Proof.
  destruct (sair_casos env clienteId db)
    as [[e E] | [l [_ [_ [_ [_ [_ E]]]]]]]; rewrite E.
  - right. repeat split.
  - left. exists (compra_de env clienteId l).
    repeat split.
    cbn [db_apos carrinhos]. apply carrinhos_particao.
Qed.

(** ** The cart after a purchase *)

(** C4. After a request that answered 201, reading the shopper's cart
    lines returns the empty sequence. *)
Theorem carrinho_vazio_apos_compra env clienteId db :
  status (fst (sair env clienteId db)) = 201 ->
  readLines clienteId (snd (sair env clienteId db)) = inr []
  /\ forall env',
       indisponivel env' FindMany = false ->
       fst (carrinhoItem_findMany env' clienteId (snd (sair env clienteId db)))
       = inr [].
Proof.
  destruct (sair_casos env clienteId db)
    as [[e E] | [l [Hr [_ [_ [_ [_ E]]]]]]]; rewrite E; cbn [fst snd].
  - discriminate.
  - apply readLines_int4 in Hr.
    intros _. split; [now apply readLines_apos|].
    intros env' D. rewrite carrinhoItem_findMany_eq, D. cbn [fst].
    now apply readLines_apos.
Qed.

Lemma carrinho_vazio_apos_compra_liliana :
  status (fst (sair (ambiente 0) 3 loja)) = 201
  /\ readLines 3 (snd (sair (ambiente 0) 3 loja)) = inr []
  /\ forall env',
       indisponivel env' FindMany = false ->
       fst (carrinhoItem_findMany env' 3 (snd (sair (ambiente 0) 3 loja)))
       = inr [].
Proof.
  split; [reflexivity|].
  exact (carrinho_vazio_apos_compra (ambiente 0) 3 loja eq_refl).
Defined.

(** ** Purchases and the catalog *)

(** C5. A recorded purchase holds the names, prices and quantities read
    when it was made; a change of the catalog leaves the ledger as it
    is, and whatever requests and changes of the catalog follow, the
    ledger still holds that purchase, lines and total unchanged. *)
Theorem compra_imutavel env clienteId db c db' :
  sair env clienteId db
  = ({| status := 201; corpo := CorpoCompra c |}, db') ->
  (exists l, readLines clienteId db = inr l
             /\ itensComprados c = map itemComprado l)
  /\ In c (compras db')
  /\ (forall ps, compras (com_produtos ps db') = compras db')
  /\ (forall db'', evolui db' db'' -> In c (compras db'')).
Proof.
  intros E.
  destruct (sair_casos env clienteId db)
    as [[e E'] | [l [Hr [_ [_ [_ [_ E']]]]]]]; rewrite E' in E.
  - discriminate.
  - inversion E; subst c db'. clear E.
    assert (Hin : In (compra_de env clienteId l)
                     (compras (db_apos env clienteId db l))).
    { cbn [db_apos compras]. apply in_or_app. right. now left. }
    split; [|split; [exact Hin|split]].
    + exists l. split; [exact Hr|].
      cbn [compra_de itensComprados]. apply calcular_itens.
    + reflexivity.
    + intros db'' Hev.
      destruct (evolui_compras _ _ Hev) as [novas Hn].
      rewrite Hn. apply in_or_app. now left.
Qed.

Lemma compra_imutavel_liliana :
  sair (ambiente 0) 3 loja
  = ({| status := 201; corpo := CorpoCompra compra_liliana |},
     loja_apos_liliana)
  /\ (exists l, readLines 3 loja = inr l
                /\ itensComprados compra_liliana = map itemComprado l)
  /\ In compra_liliana (compras loja_apos_liliana)
  /\ (forall ps,
        compras (com_produtos ps loja_apos_liliana)
        = compras loja_apos_liliana)
  /\ (forall db'',
        evolui loja_apos_liliana db'' -> In compra_liliana (compras db'')).
Proof.
  assert (H : sair (ambiente 0) 3 loja
              = ({| status := 201; corpo := CorpoCompra compra_liliana |},
                 loja_apos_liliana)) by reflexivity.
  split; [exact H|].
  exact (compra_imutavel (ambiente 0) 3 loja compra_liliana
           loja_apos_liliana H).
Defined.

(** The scenario of the specification: Camisa de Seda goes from 799.90
    to 899.90 after Liliana's purchase.  A new join reads 899.90, the
    recorded purchase still reads 799.90 and totals 1799.70. *)
Example cenario_preco_alterado :
  let db1 := snd (sair (ambiente 0) 3 loja) in
  let db2 := alterar_preco 1 89990 db1 in
  option_map preco (produto_por_id 1 db2) = Some 89990
  /\ map (fun c => (valorTotal c, map ic_preco (itensComprados c)))
         (compras db2)
     = [(179970, [79990; 49990])].
Proof. split; reflexivity. Qed.

(** ** Failure responses *)

(** C6 (as amended). Every failure of the request is answered with a
    JSON object whose only field is [error], the message of what was
    thrown; the body has no machine-readable kind.  The empty-cart
    failure, the one of a cart read that returned no line, has the
    client-error status 400 and the handler's own message. *)
Theorem sair_falha_corpo env clienteId db :
  status (fst (sair env clienteId db)) <> 201 ->
  (exists msg,
      corpo (fst (sair env clienteId db)) = CorpoObjeto [("error", msg)])
  /\ kind (corpo (fst (sair env clienteId db))) = None
  /\ (fst (carrinhoItem_findMany env clienteId db) = inr [] ->
      fst (sair env clienteId db)
      = {| status := 400; corpo := CorpoObjeto [("error", carrinho_vazio)] |}
      /\ status_cliente (status (fst (sair env clienteId db)))).
Proof.
  intros Hs.
  destruct (sair_casos env clienteId db)
    as [[e E] | [l [_ [_ [_ [_ [_ E]]]]]]].
  - split; [|split].
    + rewrite E. exists (message e). reflexivity.
    + rewrite E. reflexivity.
    + intros Hvazio. rewrite carrinhoItem_findMany_eq in Hvazio.
      assert (V : sair env clienteId db
                  = (resposta_erro (Error carrinho_vazio), db)).
      { rewrite sair_eq.
        destruct (indisponivel env FindMany); [discriminate Hvazio|].
        cbn [fst] in Hvazio. rewrite Hvazio. reflexivity. }
      rewrite V.
      split; [reflexivity|]. unfold status_cliente. cbn. lia.
  - rewrite E in Hs. cbn in Hs. contradiction.
Qed.

(** Gabrielle (2) has no cart row. *)
Lemma sair_falha_corpo_gabrielle :
  status (fst (sair (ambiente 0) 2 loja)) <> 201
  /\ fst (carrinhoItem_findMany (ambiente 0) 2 loja) = inr []
  /\ (exists msg, corpo (fst (sair (ambiente 0) 2 loja))
                  = CorpoObjeto [("error", msg)])
  /\ kind (corpo (fst (sair (ambiente 0) 2 loja))) = None
  /\ fst (sair (ambiente 0) 2 loja)
     = {| status := 400; corpo := CorpoObjeto [("error", carrinho_vazio)] |}
  /\ status_cliente (status (fst (sair (ambiente 0) 2 loja))).
Proof.
  assert (H : status (fst (sair (ambiente 0) 2 loja)) <> 201) by discriminate.
  assert (R : fst (carrinhoItem_findMany (ambiente 0) 2 loja) = inr [])
    by reflexivity.
  split; [exact H|]. split; [exact R|].
  destruct (sair_falha_corpo (ambiente 0) 2 loja H) as [M [K V]].
  split; [exact M|]. split; [exact K|].
  exact (V R).
Defined.

(** C6 as stated fails at Liliana's request when the database does not
    answer the read: the failure is answered with status 400, not a
    server-error status, and its body carries no kind, so it is none of
    the three structured errors. *)
Lemma sair_erro_estruturado_contraexemplo :
  sair (ambiente_sem FindMany 0) 3 loja
  = (resposta_erro (PrismaError Indisponivel), loja)
  /\ status (fst (sair (ambiente_sem FindMany 0) 3 loja)) = 400
  /\ kind (corpo (fst (sair (ambiente_sem FindMany 0) 3 loja))) = None
  /\ ~ status_servidor (status (fst (sair (ambiente_sem FindMany 0) 3 loja)))
  /\ ~ spec_erro_estruturado (fst (sair (ambiente_sem FindMany 0) 3 loja)).
Proof.
  assert (E : sair (ambiente_sem FindMany 0) 3 loja
              = (resposta_erro (PrismaError Indisponivel), loja))
    by reflexivity.
  rewrite E. cbn [fst resposta_erro status corpo kind campo].
  repeat split.
  - unfold status_servidor. lia.
  - intros [[C _] | [[C _] | [C _]]]; discriminate.
Qed.

(** Nor does the empty-cart failure carry a kind. *)
Example sair_carrinho_vazio_sem_kind :
  kind (corpo (fst (sair (ambiente 0) 2 loja))) = None
  /\ ~ spec_erro_estruturado (fst (sair (ambiente 0) 2 loja)).
Proof.
  assert (K : kind (corpo (fst (sair (ambiente 0) 2 loja))) = None)
    by reflexivity.
  split; [exact K|].
  intros [[C _] | [[C _] | [C _]]]; rewrite K in C; discriminate.
Qed.

(** ** Exactness of the arithmetic *)

(** C7 (as amended). Prices, subtotals and totals are whole numbers of
    cents.  For every cart of lines in range, each product of a unit
    price by a quantity is exact; and when the exact total of the cart
    has at most 20 significant digits (it is below 10^20 cents, as is
    every total that fits [valor_total]), every addition of a subtotal
    to the running total is exact, so that the running total is the
    exact sum of the lines visited. *)
Theorem aritmetica_exata l :
  Forall (fun it => linha_valida it = true) l ->
  (forall it, In it l ->
     subtotal it = preco (produto it) * quantidade (item it))
  /\ (soma_linhas l < Decimal.limite ->
      forall l1 it l2, l = l1 ++ it :: l2 ->
        Decimal.plus (fst (calcular l1)) (subtotal it)
        = fst (calcular l1) + subtotal it
        /\ fst (calcular (l1 ++ [it])) = soma_linhas (l1 ++ [it]))
  /\ (soma_linhas l < decimal_10_2_limite -> soma_linhas l < Decimal.limite).
Proof.
  intros Hl. split; [|split].
  - intros it Hin. rewrite Forall_forall in Hl.
    now apply subtotal_exact, Hl.
  - intros Hlt l1 it l2 ->.
    apply Forall_app in Hl. destruct Hl as [Hl1 Hl2].
    inversion Hl2 as [|? ? Hit Hl2']; subst.
    rewrite soma_linhas_app, soma_linhas_cons in Hlt.
    pose proof (soma_linhas_nonneg l1 Hl1) as N1.
    pose proof (soma_linhas_nonneg l2 Hl2') as N2.
    destruct (subtotal_exact it Hit) as [Es Bs].
    assert (E1 : calcular l1 = (soma_linhas l1, map itemComprado l1))
      by (apply calcular_exact; [assumption|lia]).
    split.
    + rewrite E1. cbn [fst]. apply DecimalFacts.plus_exact; lia.
    + assert (Hl3 : Forall (fun it => linha_valida it = true) (l1 ++ [it]))
        by (apply Forall_app; split; [assumption|now constructor]).
      rewrite calcular_exact; [reflexivity|assumption|].
      rewrite soma_linhas_app, soma_linhas_cons.
      change (soma_linhas []) with 0. lia.
  - pose proof DecimalFacts.limite_val.
    assert (decimal_10_2_limite = 10000000000) by reflexivity. lia.
Qed.

Lemma aritmetica_exata_liliana :
  Forall (fun it => linha_valida it = true) linhas_liliana
  /\ soma_linhas linhas_liliana < Decimal.limite
  /\ (forall it, In it linhas_liliana ->
        subtotal it = preco (produto it) * quantidade (item it))
  /\ (forall l1 it l2, linhas_liliana = l1 ++ it :: l2 ->
        Decimal.plus (fst (calcular l1)) (subtotal it)
        = fst (calcular l1) + subtotal it
        /\ fst (calcular (l1 ++ [it])) = soma_linhas (l1 ++ [it])).
Proof.
  assert (H : Forall (fun it => linha_valida it = true) linhas_liliana)
    by (repeat constructor).
  assert (P : soma_linhas linhas_liliana < Decimal.limite) by reflexivity.
  split; [exact H|]. split; [exact P|].
  destruct (aritmetica_exata linhas_liliana H) as [M [A _]].
  split; [exact M|exact (A P)].
Defined.

(** The two orders of the same six cart rows, each the cart of a
    well-formed database. *)
Example carrinhos_grandes :
  db_valido (loja_grande (linhas_grandes ++ [linha_pequena])) = true
  /\ readLines 1 (loja_grande (linhas_grandes ++ [linha_pequena]))
     = inr (linhas_grandes ++ [linha_pequena])
  /\ db_valido (loja_grande (linha_pequena :: linhas_grandes)) = true
  /\ readLines 1 (loja_grande (linha_pequena :: linhas_grandes))
     = inr (linha_pequena :: linhas_grandes).
Proof. repeat split. Qed.

(** C7 as stated fails at the cart of five lines of 2147483647 units at
    99999999.99: the lines are in range, but the fifth addition has 21
    digits and is rounded, from 107374182339262581765 to
    107374182339262581770 cents, so the total is not the exact sum. *)
Lemma aritmetica_exata_contraexemplo :
  Forall (fun it => linha_valida it = true) linhas_grandes
  /\ linhas_grandes
     = [linha_grande 1 "Iate"; linha_grande 2 "Jato"; linha_grande 3 "Ilha";
        linha_grande 4 "Castelo"] ++ [linha_grande 5 "Vinhedo"]
  /\ Decimal.plus
       (fst (calcular [linha_grande 1 "Iate"; linha_grande 2 "Jato";
                       linha_grande 3 "Ilha"; linha_grande 4 "Castelo"]))
       (subtotal (linha_grande 5 "Vinhedo"))
     <> fst (calcular [linha_grande 1 "Iate"; linha_grande 2 "Jato";
                       linha_grande 3 "Ilha"; linha_grande 4 "Castelo"])
        + subtotal (linha_grande 5 "Vinhedo")
  /\ fst (calcular linhas_grandes) = 107374182339262581770
  /\ soma_linhas linhas_grandes = 107374182339262581765.
Proof.
  split; [repeat constructor|].
  split; [reflexivity|].
  split; [vm_compute; discriminate|].
  split; vm_compute; reflexivity.
Qed.

(** ** Order of the lines *)

(** C8 (as amended). For every cart of lines in range whose exact total
    has at most 20 significant digits (below 10^20 cents, as is every
    total that fits [valor_total]), every permutation of the lines
    gives the same [valorTotal]; every line is visited, the snapshot
    of the permuted cart being the image of its lines, a permutation
    of the other snapshot. *)
Theorem total_independe_da_ordem l l' :
  Forall (fun it => linha_valida it = true) l ->
  Permutation l l' ->
  soma_linhas l < Decimal.limite ->
  fst (calcular l) = fst (calcular l')
  /\ fst (calcular l') = soma_linhas l
  /\ snd (calcular l') = map itemComprado l'
  /\ Permutation (snd (calcular l)) (snd (calcular l')).
Proof.
  intros Hl Hp Hlt.
  assert (Hl' : Forall (fun it => linha_valida it = true) l')
    by (eapply Permutation_Forall; eassumption).
  pose proof (soma_linhas_perm l l' Hp) as Es.
  rewrite (calcular_exact l Hl Hlt).
  rewrite (calcular_exact l' Hl') by lia.
  cbn [fst snd]. repeat split; auto.
  now apply Permutation_map.
Qed.

Lemma total_independe_da_ordem_liliana :
  Forall (fun it => linha_valida it = true) linhas_liliana
  /\ Permutation linhas_liliana (rev linhas_liliana)
  /\ soma_linhas linhas_liliana < Decimal.limite
  /\ fst (calcular linhas_liliana) = fst (calcular (rev linhas_liliana))
  /\ fst (calcular (rev linhas_liliana)) = soma_linhas linhas_liliana
  /\ snd (calcular (rev linhas_liliana))
     = map itemComprado (rev linhas_liliana)
  /\ Permutation (snd (calcular linhas_liliana))
                 (snd (calcular (rev linhas_liliana))).
Proof.
  assert (H1 : Forall (fun it => linha_valida it = true) linhas_liliana)
    by (repeat constructor).
  assert (H2 : Permutation linhas_liliana (rev linhas_liliana))
    by apply perm_swap.
  assert (H3 : soma_linhas linhas_liliana < Decimal.limite) by reflexivity.
  repeat (split; [assumption|]).
  exact (total_independe_da_ordem linhas_liliana (rev linhas_liliana) H1 H2 H3).
Defined.

(** C8 as stated fails at the cart of five lines of 2147483647 units at
    99999999.99 and one line of 0.05: the two orders are permutations
    of each other, and the total is 107374182339262581770 cents when
    the small line comes first and 107374182339262581780 when it comes
    last. *)
Lemma total_independe_da_ordem_contraexemplo :
  Forall (fun it => linha_valida it = true) (linha_pequena :: linhas_grandes)
  /\ Permutation (linha_pequena :: linhas_grandes)
                 (linhas_grandes ++ [linha_pequena])
  /\ fst (calcular (linha_pequena :: linhas_grandes)) = 107374182339262581770
  /\ fst (calcular (linhas_grandes ++ [linha_pequena])) = 107374182339262581780
  /\ fst (calcular (linha_pequena :: linhas_grandes))
     <> fst (calcular (linhas_grandes ++ [linha_pequena])).
Proof.
  split; [repeat constructor|].
  split; [apply Permutation_cons_append|].
  split; [vm_compute; reflexivity|].
  split; [vm_compute; reflexivity|].
  vm_compute. discriminate.
Qed.

(** ** Unknown shoppers *)

(** C10 (as amended). In a well-formed database, a request for an id
    that owns no cart line, be it the id of a client or of no row of
    [clientes] at all, never answers 404.  When its read is answered
    and the id is a value of the [INTEGER] column, it fails with the
    empty-cart error and status 400, the answer a client with an empty
    cart gets; an id outside [INTEGER] is refused by the read with the
    message of the database client, status 400 and the database as it
    was. *)
Theorem sair_cliente_desconhecido env clienteId db :
  db_valido db = true ->
  cliente_existe clienteId db = false
  \/ linhas_do_cliente clienteId db = [] ->
  status (fst (sair env clienteId db)) <> 404
  /\ (indisponivel env FindMany = false ->
      id_int4 clienteId = true ->
      sair env clienteId db
      = ({| status := 400;
            corpo := CorpoObjeto [("error", carrinho_vazio)] |}, db)
      /\ forall outro,
           id_int4 outro = true ->
           cliente_existe outro db = true ->
           linhas_do_cliente outro db = [] ->
           fst (sair env outro db) = fst (sair env clienteId db))
  /\ (indisponivel env FindMany = false ->
      id_int4 clienteId = false ->
      sair env clienteId db
      = ({| status := 400;
            corpo := CorpoObjeto
                       [("error", falha_message ForaDoInt4)] |}, db)).
Proof.
  intros Hv Hno. split; [|split].
  - destruct (sair_status env clienteId db) as [E|E]; rewrite E; discriminate.
  - intros D I.
    assert (Hvazio : linhas_do_cliente clienteId db = []).
    { destruct Hno as [Hno|Hno]; [|exact Hno].
      now apply sem_cliente_sem_linhas. }
    rewrite (sair_carrinho_vazio env clienteId db I D Hvazio).
    split; [reflexivity|].
    intros outro Io _ Ho.
    now rewrite (sair_carrinho_vazio env outro db Io D Ho).
  - intros D I. now rewrite (sair_fora_do_int4 env clienteId db I D).
Qed.

(** Id 99 is no client of the shop; Gabrielle (2) is one, with an empty
    cart. *)
Lemma sair_cliente_desconhecido_99 :
  db_valido loja = true
  /\ (cliente_existe 99 loja = false \/ linhas_do_cliente 99 loja = [])
  /\ indisponivel (ambiente 0) FindMany = false
  /\ id_int4 99 = true
  /\ status (fst (sair (ambiente 0) 99 loja)) <> 404
  /\ sair (ambiente 0) 99 loja
     = ({| status := 400; corpo := CorpoObjeto [("error", carrinho_vazio)] |},
        loja)
  /\ fst (sair (ambiente 0) 2 loja) = fst (sair (ambiente 0) 99 loja).
Proof.
  assert (H1 : db_valido loja = true) by reflexivity.
  assert (H2 : cliente_existe 99 loja = false
               \/ linhas_do_cliente 99 loja = [])
    by (left; reflexivity).
  assert (H3 : indisponivel (ambiente 0) FindMany = false) by reflexivity.
  assert (H4 : id_int4 99 = true) by reflexivity.
  split; [exact H1|]. split; [exact H2|]. split; [exact H3|].
  split; [exact H4|].
  destruct (sair_cliente_desconhecido (ambiente 0) 99 loja H1 H2)
    as [N [A _]].
  split; [exact N|].
  destruct (A H3 H4) as [E O].
  split; [exact E|].
  apply (O 2); reflexivity.
Defined.

(** C10 as stated fails at the id 2147483648, which owns no cart line
    and is no row of [clientes]: with the database answering, the read
    refuses the id, and the answer carries the message of the database
    client, not the empty-cart error that Gabrielle (2) gets. *)
Lemma sair_cliente_desconhecido_contraexemplo :
  db_valido loja = true
  /\ cliente_existe 2147483648 loja = false
  /\ linhas_do_cliente 2147483648 loja = []
  /\ disponivel (ambiente 0)
  /\ sair (ambiente 0) 2147483648 loja
     = ({| status := 400;
           corpo := CorpoObjeto [("error", falha_message ForaDoInt4)] |},
        loja)
  /\ fst (sair (ambiente 0) 2147483648 loja)
     <> {| status := 400;
           corpo := CorpoObjeto [("error", carrinho_vazio)] |}
  /\ fst (sair (ambiente 0) 2 loja)
     = {| status := 400; corpo := CorpoObjeto [("error", carrinho_vazio)] |}
  /\ fst (sair (ambiente 0) 2 loja) <> fst (sair (ambiente 0) 2147483648 loja).
Proof.
  split; [reflexivity|]. split; [reflexivity|]. split; [reflexivity|].
  split; [intros c; reflexivity|]. split; [reflexivity|].
  split; [discriminate|]. split; [reflexivity|discriminate].
Qed.

(** ** One shopper's request and the carts of the others *)

Lemma linhas_de_outro_apos clienteId outro (rows : list CarrinhoItem) :
  outro <> clienteId ->
  filter (do_cliente outro)
         (filter (fun r => negb (do_cliente clienteId r)) rows)
  = filter (do_cliente outro) rows.
Proof.
  intros Hne. induction rows as [|r rs IH]; [reflexivity|]. simpl.
  destruct (do_cliente clienteId r) eqn:E; simpl.
  - destruct (do_cliente outro r) eqn:E'; [|exact IH].
    unfold do_cliente in E, E'. apply Z.eqb_eq in E, E'. congruence.
  - destruct (do_cliente outro r); [f_equal|]; exact IH.
Qed.

Lemma incluir_produto_mesmos_produtos db db' rows :
  produtos db' = produtos db ->
  incluir_produto db' rows = incluir_produto db rows.
Proof.
  intros Hp. induction rows as [|r rs IH]; [reflexivity|]. simpl.
  unfold produto_por_id. rewrite Hp, IH. reflexivity.
Qed.

(** X1. A request of one shopper leaves the cart rows of every other
    shopper as they were, and so what the joined read returns for them,
    whether the request commits a purchase or fails. *)
Theorem sair_outros_carrinhos env clienteId outro db :
  outro <> clienteId ->
  linhas_do_cliente outro (snd (sair env clienteId db))
  = linhas_do_cliente outro db
  /\ readLines outro (snd (sair env clienteId db)) = readLines outro db.
Proof.
  intros Hne.
  destruct (sair_casos env clienteId db)
    as [[e E] | [l [_ [_ [_ [_ [_ E]]]]]]]; rewrite E; cbn [snd].
  - split; reflexivity.
  - assert (H : linhas_do_cliente outro (db_apos env clienteId db l)
                = linhas_do_cliente outro db).
    { unfold linhas_do_cliente, db_apos. cbn [carrinhos].
      now apply linhas_de_outro_apos. }
    split; [exact H|].
    unfold readLines. rewrite H.
    destruct (id_int4 outro); [|reflexivity].
    now apply incluir_produto_mesmos_produtos.
Qed.

(** Liliana (3) checks out; the cart of Moisés (1) stays. *)
Lemma sair_outros_carrinhos_moises :
  1 <> 3
  /\ linhas_do_cliente 1 (snd (sair (ambiente 0) 3 loja))
     = linhas_do_cliente 1 loja
  /\ readLines 1 (snd (sair (ambiente 0) 3 loja)) = readLines 1 loja.
Proof.
  assert (H : 1 <> 3) by discriminate.
  split; [exact H|].
  exact (sair_outros_carrinhos (ambiente 0) 3 1 loja H).
Defined.

(** ** When a cart is bought *)

(** X2. With the database answering every call, a non-empty cart of a
    well-formed database is bought (201) exactly when its exact total is
    below 100000000.00; otherwise, and only then, the answer is the
    numeric overflow of the insert, with the database as it was. *)
Theorem sair_201_sse_total_cabe env clienteId db l :
  disponivel env ->
  db_valido db = true ->
  readLines clienteId db = inr l ->
  l <> [] ->
  (soma_linhas l < decimal_10_2_limite
   <-> status (fst (sair env clienteId db)) = 201)
  /\ (decimal_10_2_limite <= soma_linhas l
      <-> sair env clienteId db
          = (resposta_erro (PrismaError NumericOverflow), db)).
Proof.
  intros Hd Hv Hr Hne.
  destruct (Z_lt_le_dec (soma_linhas l) decimal_10_2_limite) as [Hlt|Hge].
  - destruct (sair_sucesso env clienteId db l Hd Hv Hr Hne Hlt) as [_ E].
    split; split; intros H.
    + rewrite E. reflexivity.
    + exact Hlt.
    + lia.
    + rewrite E in H. inversion H.
  - pose proof (sair_overflow env clienteId db l Hd Hv Hr Hne Hge) as E.
    split; split; intros H.
    + lia.
    + rewrite E in H. discriminate H.
    + exact E.
    + exact Hge.
Qed.

Lemma sair_201_sse_total_cabe_liliana :
  disponivel (ambiente 0)
  /\ db_valido loja = true
  /\ readLines 3 loja = inr linhas_liliana
  /\ linhas_liliana <> []
  /\ (soma_linhas linhas_liliana < decimal_10_2_limite
      <-> status (fst (sair (ambiente 0) 3 loja)) = 201)
  /\ (decimal_10_2_limite <= soma_linhas linhas_liliana
      <-> sair (ambiente 0) 3 loja
          = (resposta_erro (PrismaError NumericOverflow), loja)).
Proof.
  assert (H1 : disponivel (ambiente 0)) by (intros c; reflexivity).
  assert (H2 : db_valido loja = true) by reflexivity.
  assert (H3 : readLines 3 loja = inr linhas_liliana) by reflexivity.
  assert (H4 : linhas_liliana <> []) by discriminate.
  split; [exact H1|]. split; [exact H2|]. split; [exact H3|].
  split; [exact H4|].
  exact (sair_201_sse_total_cabe (ambiente 0) 3 loja linhas_liliana
           H1 H2 H3 H4).
Defined.

(** ** What a purchase records *)

Lemma produto_por_id_chave id db p :
  produto_por_id id db = Some p -> produto_id p = id.
Proof.
  intros H. apply find_some in H. destruct H as [_ H].
  now apply Z.eqb_eq.
Qed.

Lemma incluir_produto_achado db rows : forall l,
  incluir_produto db rows = inr l ->
  Forall (fun it => produto_por_id (ci_produtoId (item it)) db
                    = Some (produto it)) l.
Proof.
  induction rows as [|r rs IH]; intros l H; simpl in H.
  - inversion H. constructor.
  - destruct (produto_por_id (ci_produtoId r) db) as [p|] eqn:E;
      [|discriminate].
    destruct (incluir_produto db rs) as [e|l']; [discriminate|].
    inversion H; subst. constructor; [exact E|]. now apply IH.
Qed.

(** X3. The purchase a request answers with belongs to the shopper of
    the request, carries the id and the instant of the environment, and
    has one line per cart row of the shopper, in the stored order, with
    the row's product id and quantity and the name and price the catalog
    holds for that product. *)
Theorem compra_espelha_carrinho env clienteId db c :
  corpo (fst (sair env clienteId db)) = CorpoCompra c ->
  map ic_id (itensComprados c)
  = map ci_produtoId (linhas_do_cliente clienteId db)
  /\ map ic_quantidade (itensComprados c)
     = map quantidade (linhas_do_cliente clienteId db)
  /\ Forall (fun i => produto_por_id (ic_id i) db
                      = Some {| produto_id := ic_id i;
                                produto_nome := ic_nome i;
                                preco := ic_preco i |})
            (itensComprados c)
  /\ compra_clienteId c = clienteId
  /\ compra_id c = proximo_id env
  /\ data c = agora env.
Proof.
  intros H.
  destruct (sair_casos env clienteId db)
    as [[e E] | [l [Hr [_ [_ [_ [_ E]]]]]]]; rewrite E in H; cbn [fst] in H.
  - discriminate H.
  - inversion H; subst c. clear H.
    cbn [compra_de itensComprados compra_clienteId compra_id data].
    rewrite calcular_itens.
    rewrite (readLines_eq _ _ (readLines_int4 _ _ _ Hr)) in Hr.
    pose proof (incluir_produto_item db _ l Hr) as Hi.
    pose proof (incluir_produto_achado db _ l Hr) as Hp.
    rewrite <- Hi, !map_map.
    assert (Hid : Forall (fun it => produto_id (produto it)
                                    = ci_produtoId (item it)) l).
    { rewrite Forall_forall in Hp |- *. intros it Hin.
      exact (produto_por_id_chave _ db _ (Hp it Hin)). }
    repeat split.
    + apply map_ext_in. intros it Hin.
      rewrite Forall_forall in Hid. exact (Hid it Hin).
    + rewrite Forall_forall in Hp, Hid |- *. intros i Hin.
      apply in_map_iff in Hin. destruct Hin as [it [<- Hin]].
      cbn [itemComprado ic_id ic_nome ic_preco].
      pose proof (Hp it Hin) as P. rewrite <- (Hid it Hin) in P.
      rewrite P. now destruct (produto it).
Qed.

Lemma compra_espelha_carrinho_liliana :
  corpo (fst (sair (ambiente 0) 3 loja)) = CorpoCompra compra_liliana
  /\ map ic_id (itensComprados compra_liliana)
     = map ci_produtoId (linhas_do_cliente 3 loja)
  /\ map ic_quantidade (itensComprados compra_liliana)
     = map quantidade (linhas_do_cliente 3 loja)
  /\ Forall (fun i => produto_por_id (ic_id i) loja
                      = Some {| produto_id := ic_id i;
                                produto_nome := ic_nome i;
                                preco := ic_preco i |})
            (itensComprados compra_liliana)
  /\ compra_clienteId compra_liliana = 3
  /\ compra_id compra_liliana = proximo_id (ambiente 0)
  /\ data compra_liliana = agora (ambiente 0).
Proof.
  assert (H : corpo (fst (sair (ambiente 0) 3 loja))
              = CorpoCompra compra_liliana) by reflexivity.
  split; [exact H|].
  exact (compra_espelha_carrinho (ambiente 0) 3 loja compra_liliana H).
Defined.

(** ** A failure after the insert *)

(** X4. When the purchase has been inserted and the database then fails
    to answer the delete of the cart rows or the commit, the callback
    has the new purchase in its working copy, and the request answers
    400 with the database as it was: no purchase is left behind. *)
Theorem sair_desfaz_compra_inserida env clienteId db l :
  readLines clienteId db = inr l ->
  l <> [] ->
  cabe_decimal_10_2 (fst (calcular l)) = true ->
  cliente_existe clienteId db = true ->
  indisponivel env FindMany = false ->
  indisponivel env Create = false ->
  indisponivel env DeleteMany = true \/ indisponivel env Commit = true ->
  compras (snd (finalizar env clienteId db))
  = compras db ++ [compra_de env clienteId l]
  /\ sair env clienteId db = (resposta_erro (PrismaError Indisponivel), db).
Proof.
  intros Hr Hne Hfit Hcli D1 D2 D34.
  pose proof (readLines_int4 _ _ _ Hr) as I.
  split.
  - unfold finalizar, bind.
    rewrite carrinhoItem_findMany_eq, D1, Hr.
    destruct l as [|it l]; [contradiction|]. cbn [length Nat.eqb].
    unfold compra_de, compra_create, carrinhoItem_deleteMany, chamada.
    destruct (calcular (it :: l)) as [total itens]. cbn [fst snd] in *.
    rewrite D2, I, Hfit, Hcli. cbn [negb].
    destruct (indisponivel env DeleteMany); reflexivity.
  - rewrite sair_eq, D1, Hr, D2, Hfit, Hcli.
    destruct l as [|it l]; [contradiction|]. cbn [length Nat.eqb negb].
    destruct D34 as [D|D]; rewrite D; [reflexivity|].
    destruct (indisponivel env DeleteMany); reflexivity.
Qed.

Lemma sair_desfaz_compra_inserida_liliana :
  readLines 3 loja = inr linhas_liliana
  /\ linhas_liliana <> []
  /\ cabe_decimal_10_2 (fst (calcular linhas_liliana)) = true
  /\ cliente_existe 3 loja = true
  /\ indisponivel (ambiente_sem Commit 0) FindMany = false
  /\ indisponivel (ambiente_sem Commit 0) Create = false
  /\ (indisponivel (ambiente_sem Commit 0) DeleteMany = true
      \/ indisponivel (ambiente_sem Commit 0) Commit = true)
  /\ compras (snd (finalizar (ambiente_sem Commit 0) 3 loja))
     = compras loja ++ [compra_de (ambiente_sem Commit 0) 3 linhas_liliana]
  /\ sair (ambiente_sem Commit 0) 3 loja
     = (resposta_erro (PrismaError Indisponivel), loja).
Proof.
  assert (H1 : readLines 3 loja = inr linhas_liliana) by reflexivity.
  assert (H2 : linhas_liliana <> []) by discriminate.
  assert (H3 : cabe_decimal_10_2 (fst (calcular linhas_liliana)) = true)
    by reflexivity.
  assert (H4 : cliente_existe 3 loja = true) by reflexivity.
  assert (H5 : indisponivel (ambiente_sem Commit 0) FindMany = false)
    by reflexivity.
  assert (H6 : indisponivel (ambiente_sem Commit 0) Create = false)
    by reflexivity.
  assert (H7 : indisponivel (ambiente_sem Commit 0) DeleteMany = true
               \/ indisponivel (ambiente_sem Commit 0) Commit = true)
    by (right; reflexivity).
  split; [exact H1|]. split; [exact H2|]. split; [exact H3|].
  split; [exact H4|]. split; [exact H5|]. split; [exact H6|].
  split; [exact H7|].
  exact (sair_desfaz_compra_inserida (ambiente_sem Commit 0) 3 loja
           linhas_liliana H1 H2 H3 H4 H5 H6 H7).
Defined.

(** ** Requests one after the other *)

Lemma atender_cons env clienteId resto db :
  atender ((env, clienteId) :: resto) db
  = (fst (sair env clienteId db)
       :: fst (atender resto (snd (sair env clienteId db))),
     snd (atender resto (snd (sair env clienteId db)))).
Proof.
  cbn [atender].
  destruct (sair env clienteId db) as [r db1]. cbn [fst snd].
  now destruct (atender resto db1).
Qed.

(** A request never adds a cart row: an empty cart stays empty. *)
Lemma sair_linhas_vazias env quem clienteId db :
  linhas_do_cliente clienteId db = [] ->
  linhas_do_cliente clienteId (snd (sair env quem db)) = [].
Proof.
  intros H.
  destruct (sair_casos env quem db)
    as [[e E] | [l [_ [_ [_ [_ [_ E]]]]]]]; rewrite E; cbn [snd];
    [exact H|].
  unfold linhas_do_cliente, db_apos. cbn [carrinhos].
  destruct (Z.eq_dec clienteId quem) as [->|Hne].
  - apply filter_do_cliente_apos.
  - rewrite linhas_de_outro_apos by exact Hne. exact H.
Qed.

Lemma sair_sem_linhas_400 env clienteId db :
  linhas_do_cliente clienteId db = [] ->
  status (fst (sair env clienteId db)) = 400.
Proof.
  intros H.
  destruct (sair_casos env clienteId db)
    as [[e E] | [l [Hr [Hne _]]]]; [now rewrite E|].
  rewrite (readLines_eq _ _ (readLines_int4 _ _ _ Hr)), H in Hr.
  simpl in Hr. inversion Hr; subst. contradiction.
Qed.

Lemma sair_201_linhas env clienteId db :
  status (fst (sair env clienteId db)) = 201 ->
  linhas_do_cliente clienteId (snd (sair env clienteId db)) = [].
Proof.
  intros H.
  destruct (sair_casos env clienteId db)
    as [[e E] | [l [_ [_ [_ [_ [_ E]]]]]]]; rewrite E in H |- *;
    [discriminate H|].
  cbn [snd]. unfold linhas_do_cliente, db_apos. cbn [carrinhos].
  apply filter_do_cliente_apos.
Qed.

Lemma atender_sem_linhas clienteId pedidos : forall db,
  linhas_do_cliente clienteId db = [] ->
  filter (comprou clienteId) (combine pedidos (fst (atender pedidos db)))
  = [].
Proof.
  induction pedidos as [|[env quem] resto IH]; intros db H; [reflexivity|].
  rewrite atender_cons. cbn [fst combine filter].
  assert (C : comprou clienteId (env, quem, fst (sair env quem db)) = false).
  { unfold comprou. cbn [fst snd].
    destruct (quem =? clienteId) eqn:Q; [|reflexivity].
    apply Z.eqb_eq in Q. subst quem.
    now rewrite (sair_sem_linhas_400 env clienteId db H). }
  rewrite C. apply IH. now apply sair_linhas_vazias.
Qed.

(** X5. Among requests served one after the other, with nothing added
    to the carts in between, at most one of a shopper's requests is
    answered 201, whatever the requests, their number and the calls the
    database fails to answer. *)
Theorem atender_uma_compra_por_cliente pedidos clienteId db :
  (length (filter (comprou clienteId)
                  (combine pedidos (fst (atender pedidos db)))) <= 1)%nat.
Proof.
  revert db.
  induction pedidos as [|[env quem] resto IH]; intros db; [simpl; lia|].
  rewrite atender_cons. cbn [fst combine filter].
  destruct (comprou clienteId (env, quem, fst (sair env quem db))) eqn:C;
    [|apply IH].
  unfold comprou in C. cbn [fst snd] in C.
  apply andb_prop in C. destruct C as [Q S].
  apply Z.eqb_eq in Q, S. subst quem.
  rewrite (atender_sem_linhas clienteId resto); [simpl; lia|].
  now apply sair_201_linhas.
Qed.

(** X6. After any requests served one after the other, the ledger is
    the ledger from before followed by exactly the purchases answered
    with 201, in the order of the answers. *)
Theorem atender_compras pedidos db :
  compras (snd (atender pedidos db))
  = compras db ++ compras_respondidas (fst (atender pedidos db)).
Proof.
  revert db.
  induction pedidos as [|[env quem] resto IH]; intros db.
  - simpl. now rewrite app_nil_r.
  - rewrite atender_cons. cbn [fst snd]. rewrite IH.
    unfold compras_respondidas. cbn [flat_map].
    destruct (sair_casos env quem db)
      as [[e E] | [l [_ [_ [_ [_ [_ E]]]]]]]; rewrite E; cbn [fst snd].
    + reflexivity.
    + cbn [corpo db_apos compras]. now rewrite <- app_assoc.
Qed.

Lemma sair_clientes_produtos env clienteId db :
  clientes (snd (sair env clienteId db)) = clientes db
  /\ produtos (snd (sair env clienteId db)) = produtos db.
Proof.
  destruct (sair_casos env clienteId db)
    as [[e E] | [l [_ [_ [_ [_ [_ E]]]]]]]; rewrite E; split; reflexivity.
Qed.

Lemma atender_clientes_produtos pedidos : forall db,
  clientes (snd (atender pedidos db)) = clientes db
  /\ produtos (snd (atender pedidos db)) = produtos db.
Proof.
  induction pedidos as [|[env quem] resto IH]; intros db;
    [split; reflexivity|].
  rewrite atender_cons. cbn [snd].
  destruct (IH (snd (sair env quem db))) as [Hc Hp].
  destruct (sair_clientes_produtos env quem db) as [Hc' Hp'].
  split; congruence.
Qed.

(** X7. A well-formed database stays well-formed through any requests
    served one after the other: prices, quantities, totals and foreign
    keys stay in range whether the requests commit or fail. *)
Theorem atender_db_valido pedidos db :
  db_valido db = true ->
  db_valido (snd (atender pedidos db)) = true.
Proof.
  revert db.
  induction pedidos as [|[env quem] resto IH]; intros db Hv; [exact Hv|].
  rewrite atender_cons. cbn [snd].
  apply IH. now apply sair_db_valido.
Qed.

(** Liliana, Moisés and Liliana again. *)
Lemma atender_db_valido_loja :
  db_valido loja = true
  /\ db_valido
       (snd (atender [(ambiente 0, 3); (ambiente 1, 1); (ambiente 2, 3)]
                     loja)) = true.
Proof.
  assert (H : db_valido loja = true) by reflexivity.
  split; [exact H|].
  exact (atender_db_valido
           [(ambiente 0, 3); (ambiente 1, 1); (ambiente 2, 3)] loja H).
Defined.

(** ** Entering the shop *)

Lemma cliente_findUnique_existe clienteId db :
  cliente_existe clienteId db
  = match cliente_findUnique clienteId db with
    | Some _ => true
    | None => false
    end.
Proof.
  unfold cliente_existe, cliente_findUnique.
  induction (clientes db) as [|c cs IH]; [reflexivity|]. simpl.
  destruct (cliente_id c =? clienteId); [reflexivity|exact IH].
Qed.

(** X8. When the database answers and the id is a value of the
    [INTEGER] key, entering is answered 200 for the id of a row of
    [clientes], with a greeting that names a stored client of that id,
    and 404 with the message of the unknown client for every other such
    id; when the database does not answer, or the id is no [INTEGER]
    value, the lookup throws and the status is 500.  There is no other
    answer. *)
Theorem entrar_resposta banco clienteId db :
  (banco = true /\ id_int4 clienteId = true
   /\ cliente_existe clienteId db = true
   /\ exists cliente,
        In cliente (clientes db) /\ cliente_id cliente = clienteId
        /\ entrar (findUnique_retorna banco clienteId) clienteId db
           = {| status := 200;
                corpo := CorpoObjeto
                           [("status", "sucesso");
                            ("mensagem", mensagem_entrada cliente)] |})
  \/ (banco = true /\ id_int4 clienteId = true
      /\ cliente_existe clienteId db = false
      /\ entrar (findUnique_retorna banco clienteId) clienteId db
         = {| status := 404;
              corpo := CorpoObjeto [("error", cliente_nao_encontrado)] |})
  \/ ((banco = false \/ id_int4 clienteId = false)
      /\ entrar (findUnique_retorna banco clienteId) clienteId db
         = {| status := 500;
              corpo := CorpoObjeto
                         [("error",
                           "Erro ao processar a entrada do cliente.")] |}).
Proof.
  unfold findUnique_retorna.
  destruct banco; [|right; right; split; [now left|reflexivity]].
  destruct (id_int4 clienteId) eqn:I;
    [|right; right; split; [now right|reflexivity]].
  cbn [andb]. rewrite cliente_findUnique_existe. unfold entrar.
  destruct (cliente_findUnique clienteId db) as [c|] eqn:F.
  - left. repeat split. exists c.
    unfold cliente_findUnique in F. apply find_some in F.
    destruct F as [Hin Hid]. apply Z.eqb_eq in Hid. auto.
  - right. left. repeat split.
Qed.

(** X9. Whoever gets a purchase (201) is a client that entering
    accepts (200), before the request and after it: the insert checks
    the foreign key of the purchase. *)
Theorem quem_compra_entra env clienteId db :
  status (fst (sair env clienteId db)) = 201 ->
  status (entrar true clienteId db) = 200
  /\ status (entrar true clienteId (snd (sair env clienteId db))) = 200.
Proof.
  intros H.
  destruct (sair_casos env clienteId db)
    as [[e E] | [l [_ [_ [_ [_ [Hcli E]]]]]]]; rewrite E in H |- *;
    [discriminate H|].
  cbn [snd].
  assert (A : status (entrar true clienteId db) = 200).
  { rewrite cliente_findUnique_existe in Hcli. unfold entrar.
    now destruct (cliente_findUnique clienteId db). }
  split; [exact A|exact A].
Qed.

Lemma quem_compra_entra_liliana :
  status (fst (sair (ambiente 0) 3 loja)) = 201
  /\ status (entrar true 3 loja) = 200
  /\ status (entrar true 3 (snd (sair (ambiente 0) 3 loja))) = 200.
Proof.
  assert (H : status (fst (sair (ambiente 0) 3 loja)) = 201) by reflexivity.
  split; [exact H|].
  exact (quem_compra_entra (ambiente 0) 3 loja H).
Defined.

(** X10. For an id within [INTEGER] that is no row of [clientes], in a
    well-formed database that answers, the two handlers differ: entering
    answers 404 with the message of the unknown client, checking out
    answers 400 with the message of the empty cart; neither writes. *)
Theorem desconhecido_entrar_404_sair_400 env clienteId db :
  db_valido db = true ->
  id_int4 clienteId = true ->
  cliente_existe clienteId db = false ->
  indisponivel env FindMany = false ->
  entrar (findUnique_retorna true clienteId) clienteId db
  = {| status := 404;
       corpo := CorpoObjeto [("error", cliente_nao_encontrado)] |}
  /\ sair env clienteId db
     = ({| status := 400; corpo := CorpoObjeto [("error", carrinho_vazio)] |},
        db).
Proof.
  intros Hv I Hno D. split.
  - unfold findUnique_retorna. rewrite I. cbn [andb].
    rewrite cliente_findUnique_existe in Hno. unfold entrar.
    now destruct (cliente_findUnique clienteId db).
  - apply sair_carrinho_vazio; [exact I|exact D|].
    now apply sem_cliente_sem_linhas.
Qed.

Lemma desconhecido_entrar_404_sair_400_loja :
  db_valido loja = true
  /\ id_int4 99 = true
  /\ cliente_existe 99 loja = false
  /\ indisponivel (ambiente 0) FindMany = false
  /\ entrar (findUnique_retorna true 99) 99 loja
     = {| status := 404;
          corpo := CorpoObjeto [("error", cliente_nao_encontrado)] |}
  /\ sair (ambiente 0) 99 loja
     = ({| status := 400; corpo := CorpoObjeto [("error", carrinho_vazio)] |},
        loja).
Proof.
  assert (H1 : db_valido loja = true) by reflexivity.
  assert (H2 : id_int4 99 = true) by reflexivity.
  assert (H3 : cliente_existe 99 loja = false) by reflexivity.
  assert (H4 : indisponivel (ambiente 0) FindMany = false) by reflexivity.
  split; [exact H1|]. split; [exact H2|]. split; [exact H3|].
  split; [exact H4|].
  exact (desconhecido_entrar_404_sair_400 (ambiente 0) 99 loja H1 H2 H3 H4).
Defined.

(** ** The listings *)

(** With the primary key of [clientes], the lookup by a row's id finds
    that row. *)
Lemma cliente_findUnique_linha db c :
  NoDup (map cliente_id (clientes db)) ->
  In c (clientes db) ->
  cliente_findUnique (cliente_id c) db = Some c.
Proof.
  unfold cliente_findUnique.
  induction (clientes db) as [|x xs IH]; intros Hnd Hin; [contradiction|].
  simpl in Hnd |- *. inversion Hnd as [|? ? Hx Hxs]; subst.
  destruct Hin as [->|Hin].
  - now rewrite Z.eqb_refl.
  - destruct (cliente_id x =? cliente_id c) eqn:E; [|now apply IH].
    apply Z.eqb_eq in E. exfalso. apply Hx. rewrite E.
    now apply in_map.
Qed.

(** X11. Every client that GET /clientes lists can enter: with the
    primary key of [clientes] (no two rows share an id), entering with
    the id of a listed row is answered 200 with the greeting that names
    that very row. *)
Theorem cliente_listado_entra db c :
  NoDup (map cliente_id (clientes db)) ->
  In c (linhas_listadas (get_clientes true db)) ->
  entrar true (cliente_id c) db
  = {| status := 200;
       corpo := CorpoObjeto [("status", "sucesso");
                             ("mensagem", mensagem_entrada c)] |}.
Proof.
  intros Hnd Hin. unfold entrar.
  now rewrite (cliente_findUnique_linha db c Hnd Hin).
Qed.

Lemma cliente_listado_entra_pedro :
  NoDup (map cliente_id (clientes loja))
  /\ In {| cliente_id := 5; cliente_nome := "Pedro";
            metodo_pagamento := "credito_final_7435" |}
        (linhas_listadas (get_clientes true loja))
  /\ entrar true 5 loja
     = {| status := 200;
          corpo := CorpoObjeto
                     [("status", "sucesso");
                      ("mensagem", "Cliente Pedro entrou na loja.")] |}.
Proof.
  assert (H1 : NoDup (map cliente_id (clientes loja))).
  { simpl. repeat (constructor; [simpl; intuition discriminate|]).
    constructor. }
  assert (H2 : In {| cliente_id := 5; cliente_nome := "Pedro";
                     metodo_pagamento := "credito_final_7435" |}
                  (linhas_listadas (get_clientes true loja))).
  { simpl. do 4 right. left. reflexivity. }
  split; [exact H1|]. split; [exact H2|].
  exact (cliente_listado_entra loja _ H1 H2).
Defined.

(** X12. No requests to check out, however many and whatever their
    outcome, change what GET /clientes and GET /produtos answer. *)
Theorem listagens_apos_atender responde pedidos db :
  get_clientes responde (snd (atender pedidos db)) = get_clientes responde db
  /\ get_produtos responde (snd (atender pedidos db))
     = get_produtos responde db.
Proof.
  destruct (atender_clientes_produtos pedidos db) as [Hc Hp].
  unfold get_clientes, get_produtos. now rewrite Hc, Hp.
Qed.

(** ** The seed script *)

Lemma nome_em_uso_app nome ps qs :
  nome_em_uso nome (ps ++ qs) = nome_em_uso nome ps || nome_em_uso nome qs.
Proof. unfold nome_em_uso. apply existsb_app. Qed.


(** One name already in use refuses the whole statement. *)
Lemma inserir_produtos_em_uso dados : forall id ps,
  existsb (fun d => nome_em_uso (fst d) ps) dados = true ->
  inserir_produtos id dados ps = None.
Proof.
  induction dados as [|[nome valor] resto IH]; intros id ps H;
    [discriminate H|].
  cbn [existsb fst] in H. cbn [inserir_produtos].
  destruct (nome_em_uso nome ps) eqn:E; [reflexivity|].
  destruct (negb (cabe_decimal_10_2 valor)); [reflexivity|].
  cbn [orb] in H |- *. apply IH.
  apply existsb_exists in H. destruct H as [d [Hin Hd]].
  apply existsb_exists. exists d. split; [exact Hin|].
  rewrite nome_em_uso_app, Hd. reflexivity.
Qed.

Lemma nomes_livres_false dados db :
  nomes_livres dados db = false ->
  existsb (fun d => nome_em_uso (fst d) (produtos db)) dados = true.
Proof.
  unfold nomes_livres.
  induction dados as [|d resto IH]; intros H; [discriminate H|].
  cbn [forallb existsb] in H |- *.
  destruct (nome_em_uso (fst d) (produtos db)); [reflexivity|].
  cbn [negb andb orb] in H |- *. now apply IH.
Qed.

Lemma main_clientes seq db :
  clientes
    (cliente_create (clientes_id_seq seq + 4) "Pedro" "credito_final_7435"
      (cliente_create (clientes_id_seq seq + 3) "Luis" "credito_final_3654"
        (cliente_create (clientes_id_seq seq + 2) "Liliana"
           "credito_final_8987"
          (cliente_create (clientes_id_seq seq + 1) "Gabrielle"
             "credito_final_5151"
            (cliente_create (clientes_id_seq seq) "Moisés"
               "credito_final_4242" db)))))
  = clientes db ++ clientes_semeados (clientes_id_seq seq).
Proof.
  unfold cliente_create. cbn [clientes]. now rewrite <- !app_assoc.
Qed.


Lemma main_em_uso seq db :
  nomes_livres produtos_do_seed db = false ->
  main seq db = (false, db_so_clientes seq db).
Proof.
  intros H. apply nomes_livres_false in H.
  unfold main, produto_createMany.
  cbn [cliente_create produtos].
  rewrite (inserir_produtos_em_uso produtos_do_seed _ _ H).
  unfold db_so_clientes. now rewrite <- (main_clientes seq db).
Qed.





(** The ids handed out by a sequence that is ahead are new, so that the
    primary key of [clientes] holds after the five inserts as before. *)
Lemma clientes_semeados_chave seq db :
  sequencia_adiantada seq db = true ->
  NoDup (map cliente_id (clientes db)) ->
  NoDup (map cliente_id
           (clientes db ++ clientes_semeados (clientes_id_seq seq))).
Proof.
  intros Ha Hn. rewrite map_app. apply NoDup_app; [exact Hn| |].
  - cbn [clientes_semeados map cliente_id].
    repeat (constructor; [simpl; lia|]). constructor.
  - intros a Hin. apply in_map_iff in Hin. destruct Hin as [c [<- Hin]].
    unfold sequencia_adiantada in Ha. rewrite forallb_forall in Ha.
    specialize (Ha c Hin). apply Z.ltb_lt in Ha.
    cbn [clientes_semeados map cliente_id]. simpl. lia.
Qed.

(** X14. On a database whose sequence of client ids is ahead of the
    stored ids, when one of the five product names is already in use,
    the seed script ends with exit code 1 and adds no product at all,
    but the five clients it created before stay in the database, under
    five ids that no row had. *)
Theorem seed_nome_em_uso seq db :
  sequencia_adiantada seq db = true ->
  NoDup (map cliente_id (clientes db)) ->
  nomes_livres produtos_do_seed db = false ->
  seed seq db = (1, db_so_clientes seq db)
  /\ produtos (snd (seed seq db)) = produtos db
  /\ length (clientes (snd (seed seq db))) = (length (clientes db) + 5)%nat
  /\ NoDup (map cliente_id (clientes (snd (seed seq db)))).
Proof.
  intros Ha Hn H. unfold seed. rewrite (main_em_uso seq db H).
  split; [reflexivity|]. split; [reflexivity|].
  cbn [snd db_so_clientes clientes].
  split; [now rewrite length_app|].
  now apply clientes_semeados_chave.
Qed.

(** The shop already seeded, its sequences at 6: the run that follows
    adds the clients 6 to 10 and no product. *)
Lemma seed_nome_em_uso_loja :
  sequencia_adiantada {| clientes_id_seq := 6; produtos_id_seq := 6 |} loja
  = true
  /\ NoDup (map cliente_id (clientes loja))
  /\ nomes_livres produtos_do_seed loja = false
  /\ seed {| clientes_id_seq := 6; produtos_id_seq := 6 |} loja
     = (1, {| clientes := clientes loja ++ clientes_semeados 6;
              produtos := produtos loja;
              carrinhos := carrinhos loja;
              compras := compras loja |})
  /\ produtos (snd (seed {| clientes_id_seq := 6; produtos_id_seq := 6 |}
                         loja)) = produtos loja
  /\ length (clientes
               (snd (seed {| clientes_id_seq := 6; produtos_id_seq := 6 |}
                          loja)))
     = (length (clientes loja) + 5)%nat
  /\ NoDup (map cliente_id
              (clientes
                 (snd (seed {| clientes_id_seq := 6; produtos_id_seq := 6 |}
                            loja)))).
Proof.
  assert (H1 : sequencia_adiantada
                 {| clientes_id_seq := 6; produtos_id_seq := 6 |} loja
               = true) by reflexivity.
  assert (H2 : NoDup (map cliente_id (clientes loja))).
  { simpl. repeat (constructor; [simpl; intuition discriminate|]).
    constructor. }
  assert (H3 : nomes_livres produtos_do_seed loja = false) by reflexivity.
  split; [exact H1|]. split; [exact H2|]. split; [exact H3|].
  exact (seed_nome_em_uso {| clientes_id_seq := 6; produtos_id_seq := 6 |}
           loja H1 H2 H3).
Defined.



(** ** The event bus *)

Lemma definir_mesmo eventName cbs bus :
  EventBus.definir eventName cbs bus eventName = Some cbs.
Proof. unfold EventBus.definir. now rewrite String.eqb_refl. Qed.

Lemma definir_outro eventName outro cbs bus :
  outro <> eventName ->
  EventBus.definir eventName cbs bus outro = bus outro.
Proof.
  intros H. unfold EventBus.definir.
  destruct (String.eqb outro eventName) eqn:E; [|reflexivity].
  apply String.eqb_eq in E. contradiction.
Qed.

Lemma inscritos_outro eventName outro cbs bus :
  outro <> eventName ->
  EventBus.inscritos outro (EventBus.definir eventName cbs bus)
  = EventBus.inscritos outro bus.
Proof.
  intros H. unfold EventBus.inscritos. now rewrite definir_outro.
Qed.

(** X16. A callback subscribed to an event that is no property of
    [Object.prototype] is called by the next [emit] of that event after
    all the callbacks subscribed before it, which are called in the
    order of their subscription; what is emitted for other events is
    unchanged. *)
Theorem emit_apos_subscribe {D : Type} eventName callback (data : D) bus :
  EventBus.herdado eventName = false ->
  exists bus' antes,
    EventBus.subscribe eventName callback bus = Some bus'
    /\ EventBus.emit eventName data bus = Some antes
    /\ EventBus.emit eventName data bus' = Some (antes ++ [(callback, data)])
    /\ forall outro (d : D),
         outro <> eventName ->
         EventBus.emit outro d bus' = EventBus.emit outro d bus.
Proof.
  intros H. unfold EventBus.subscribe, EventBus.emit. rewrite H.
  eexists. eexists. split; [reflexivity|]. split; [reflexivity|]. split.
  - unfold EventBus.inscritos at 1. rewrite definir_mesmo.
    now rewrite map_app.
  - intros outro d Hne. now rewrite inscritos_outro.
Qed.

Lemma emit_apos_subscribe_item :
  EventBus.herdado "item-adicionado" = false
  /\ exists bus' antes,
       EventBus.subscribe "item-adicionado" 7%nat EventBus.novo = Some bus'
       /\ EventBus.emit "item-adicionado" 1 EventBus.novo = Some antes
       /\ EventBus.emit "item-adicionado" 1 bus' = Some (antes ++ [(7%nat, 1)])
       /\ forall outro (d : Z),
            outro <> "item-adicionado" ->
            EventBus.emit outro d bus' = EventBus.emit outro d EventBus.novo.
Proof.
  assert (H : EventBus.herdado "item-adicionado" = false) by reflexivity.
  split; [exact H|].
  exact (emit_apos_subscribe "item-adicionado" 7%nat 1 EventBus.novo H).
Defined.

Lemma filter_outros_callbacks callback (cbs : list EventBus.Callback) :
  ~ In callback cbs ->
  filter (fun cb => negb (Nat.eqb cb callback)) (cbs ++ [callback]) = cbs.
Proof.
  induction cbs as [|x xs IH]; intros H; simpl.
  - now rewrite Nat.eqb_refl.
  - destruct (Nat.eqb x callback) eqn:E.
    + apply Nat.eqb_eq in E. exfalso. apply H. now left.
    + simpl. f_equal. apply IH. intros Hin. apply H. now right.
Qed.

(** X17. The function that [subscribe] returns removes every
    registration of its callback for its event, also those made by
    other calls of [subscribe]: afterwards [emit] calls the remaining
    callbacks of the event, in their order, and never that callback;
    other events are untouched. *)
Theorem unsubscribe_remove_todas {D : Type} eventName callback (data : D)
    bus bus' :
  EventBus.herdado eventName = false ->
  EventBus.unsubscribe eventName callback bus = Some bus' ->
  EventBus.emit eventName data bus'
  = Some (map (fun cb => (cb, data))
              (filter (fun cb => negb (Nat.eqb cb callback))
                      (EventBus.inscritos eventName bus)))
  /\ (forall calls, EventBus.emit eventName data bus' = Some calls ->
                    ~ In (callback, data) calls)
  /\ forall outro, outro <> eventName -> bus' outro = bus outro.
Proof.
  intros H U. unfold EventBus.unsubscribe in U.
  unfold EventBus.emit, EventBus.inscritos. rewrite H.
  destruct (bus eventName) as [cbs|]; [|discriminate U].
  inversion U; subst bus'. clear U. rewrite definir_mesmo.
  split; [reflexivity|]. split.
  - intros calls E. inversion E; subst calls. clear E. intros Hin.
    apply in_map_iff in Hin. destruct Hin as [cb [Hcb Hin]].
    inversion Hcb; subst cb. apply filter_In in Hin.
    destruct Hin as [_ Hin]. now rewrite Nat.eqb_refl in Hin.
  - intros outro Hne. now apply definir_outro.
Qed.

(** The callback 7 subscribed twice, 8 once: one call of the function
    returned for 7 leaves 8 alone. *)
Lemma unsubscribe_remove_todas_duas_inscricoes :
  EventBus.herdado "item-adicionado" = false
  /\ EventBus.unsubscribe "item-adicionado" 7%nat
       (EventBus.executar
          [EventBus.Subscribe "item-adicionado" 7%nat;
           EventBus.Subscribe "item-adicionado" 8%nat;
           EventBus.Subscribe "item-adicionado" 7%nat] EventBus.novo)
     = Some (EventBus.definir "item-adicionado" [8%nat]
               (EventBus.executar
                  [EventBus.Subscribe "item-adicionado" 7%nat;
                   EventBus.Subscribe "item-adicionado" 8%nat;
                   EventBus.Subscribe "item-adicionado" 7%nat] EventBus.novo))
  /\ EventBus.emit "item-adicionado" 1
       (EventBus.definir "item-adicionado" [8%nat]
          (EventBus.executar
             [EventBus.Subscribe "item-adicionado" 7%nat;
              EventBus.Subscribe "item-adicionado" 8%nat;
              EventBus.Subscribe "item-adicionado" 7%nat] EventBus.novo))
     = Some [(8%nat, 1)].
Proof.
  assert (H : EventBus.herdado "item-adicionado" = false) by reflexivity.
  assert (U : EventBus.unsubscribe "item-adicionado" 7%nat
                (EventBus.executar
                   [EventBus.Subscribe "item-adicionado" 7%nat;
                    EventBus.Subscribe "item-adicionado" 8%nat;
                    EventBus.Subscribe "item-adicionado" 7%nat] EventBus.novo)
              = Some (EventBus.definir "item-adicionado" [8%nat]
                        (EventBus.executar
                           [EventBus.Subscribe "item-adicionado" 7%nat;
                            EventBus.Subscribe "item-adicionado" 8%nat;
                            EventBus.Subscribe "item-adicionado" 7%nat]
                           EventBus.novo)))
    by reflexivity.
  split; [exact H|]. split; [exact U|].
  exact (proj1 (unsubscribe_remove_todas "item-adicionado" 7%nat 1 _ _ H U)).
Defined.

(** X18. Subscribing a callback that the event does not have yet and
    then calling the returned function leaves every [emit], of every
    event, with the same calls as before. *)
Theorem subscribe_unsubscribe eventName callback bus :
  EventBus.herdado eventName = false ->
  ~ In callback (EventBus.inscritos eventName bus) ->
  exists bus' bus'',
    EventBus.subscribe eventName callback bus = Some bus'
    /\ EventBus.unsubscribe eventName callback bus' = Some bus''
    /\ forall (D : Type) e (d : D),
         EventBus.emit e d bus'' = EventBus.emit e d bus.
Proof.
  intros H Hn. unfold EventBus.subscribe. rewrite H.
  eexists. eexists. split; [reflexivity|].
  unfold EventBus.unsubscribe. rewrite definir_mesmo.
  rewrite (filter_outros_callbacks callback _ Hn).
  split; [reflexivity|].
  intros D e d. unfold EventBus.emit.
  destruct (EventBus.herdado e); [reflexivity|]. f_equal. f_equal.
  destruct (string_dec e eventName) as [->|Hne].
  - unfold EventBus.inscritos at 1. now rewrite definir_mesmo.
  - now rewrite !inscritos_outro.
Qed.

Lemma subscribe_unsubscribe_novo :
  EventBus.herdado "cliente-entrou-loja" = false
  /\ ~ In 7%nat (EventBus.inscritos "cliente-entrou-loja" EventBus.novo)
  /\ exists bus' bus'',
       EventBus.subscribe "cliente-entrou-loja" 7%nat EventBus.novo
       = Some bus'
       /\ EventBus.unsubscribe "cliente-entrou-loja" 7%nat bus' = Some bus''
       /\ forall (D : Type) e (d : D),
            EventBus.emit e d bus'' = EventBus.emit e d EventBus.novo.
Proof.
  assert (H1 : EventBus.herdado "cliente-entrou-loja" = false)
    by reflexivity.
  assert (H2 : ~ In 7%nat
                 (EventBus.inscritos "cliente-entrou-loja" EventBus.novo))
    by (intros []).
  split; [exact H1|]. split; [exact H2|].
  exact (subscribe_unsubscribe "cliente-entrou-loja" 7%nat EventBus.novo
           H1 H2).
Defined.

(** No operation takes the array of an event away. *)
Lemma operar_mantem_lista eventName bus op :
  (exists cbs, bus eventName = Some cbs) ->
  exists cbs, EventBus.operar bus op eventName = Some cbs.
Proof.
  intros [cbs Hc]. destruct op as [e cb|e cb|e]; cbn [EventBus.operar].
  - unfold EventBus.subscribe.
    destruct (EventBus.herdado e); [eauto|].
    unfold EventBus.definir.
    destruct (String.eqb eventName e); eauto.
  - unfold EventBus.unsubscribe.
    destruct (bus e); [|eauto].
    unfold EventBus.definir.
    destruct (String.eqb eventName e); eauto.
  - eauto.
Qed.

Lemma executar_mantem_lista eventName ops : forall bus,
  (exists cbs, bus eventName = Some cbs) ->
  exists cbs, EventBus.executar ops bus eventName = Some cbs.
Proof.
  unfold EventBus.executar.
  induction ops as [|op ops IH]; intros bus H; [exact H|].
  cbn [fold_left]. apply IH. now apply operar_mantem_lista.
Qed.

(** X19. The function that [subscribe] returns never throws and always
    silences its callback, whatever is subscribed, unsubscribed or
    emitted between the subscription and its call. *)
Theorem unsubscribe_nunca_falha eventName callback bus bus' ops :
  EventBus.subscribe eventName callback bus = Some bus' ->
  exists bus'',
    EventBus.unsubscribe eventName callback (EventBus.executar ops bus')
    = Some bus''
    /\ ~ In callback (EventBus.inscritos eventName bus'').
Proof.
  intros S. unfold EventBus.subscribe in S.
  destruct (EventBus.herdado eventName); [discriminate S|].
  inversion S; subst bus'. clear S.
  destruct (executar_mantem_lista eventName ops
              (EventBus.definir eventName
                 (EventBus.inscritos eventName bus ++ [callback]) bus))
    as [cbs Hc]; [rewrite definir_mesmo; eauto|].
  unfold EventBus.unsubscribe. rewrite Hc.
  eexists. split; [reflexivity|].
  unfold EventBus.inscritos. rewrite definir_mesmo.
  intros Hin. apply filter_In in Hin. destruct Hin as [_ Hin].
  now rewrite Nat.eqb_refl in Hin.
Qed.

Lemma unsubscribe_nunca_falha_item :
  EventBus.subscribe "item-adicionado" 7%nat EventBus.novo
  = Some (EventBus.definir "item-adicionado" [7%nat] EventBus.novo)
  /\ exists bus'',
       EventBus.unsubscribe "item-adicionado" 7%nat
         (EventBus.executar
            [EventBus.Emit "item-adicionado";
             EventBus.Subscribe "cliente-pagou" 8%nat;
             EventBus.Unsubscribe "item-adicionado" 7%nat]
            (EventBus.definir "item-adicionado" [7%nat] EventBus.novo))
       = Some bus''
       /\ ~ In 7%nat (EventBus.inscritos "item-adicionado" bus'').
Proof.
  assert (H : EventBus.subscribe "item-adicionado" 7%nat EventBus.novo
              = Some (EventBus.definir "item-adicionado" [7%nat]
                        EventBus.novo))
    by reflexivity.
  split; [exact H|].
  exact (unsubscribe_nunca_falha "item-adicionado" 7%nat EventBus.novo _
           [EventBus.Emit "item-adicionado";
            EventBus.Subscribe "cliente-pagou" 8%nat;
            EventBus.Unsubscribe "item-adicionado" 7%nat] H).
Defined.

(** ** What a refused request says *)

Lemma incluir_produto_erro db rows e :
  incluir_produto db rows = inl e -> e = PrismaError InconsistentResult.
Proof.
  induction rows as [|r rs IH]; simpl; [discriminate|].
  destruct (produto_por_id (ci_produtoId r) db); [|now inversion 1].
  destruct (incluir_produto db rs) as [e'|l]; [|discriminate].
  intros H. inversion H; subst. now apply IH.
Qed.

(** Every refusal carries a message that is not empty, and leaves the
    database as it was. *)
Lemma sair_400_mensagem env clienteId db :
  status (fst (sair env clienteId db)) = 400 ->
  exists m,
    sair env clienteId db
    = ({| status := 400; corpo := CorpoObjeto [("error", m)] |}, db)
    /\ String.eqb m "" = false.
Proof.
  rewrite sair_eq.
  destruct (indisponivel env FindMany);
    [intros _; eexists; split; reflexivity|].
  destruct (readLines clienteId db) as [e|l] eqn:R.
  - unfold readLines in R. destruct (id_int4 clienteId).
    + apply incluir_produto_erro in R. subst e.
      intros _; eexists; split; reflexivity.
    + inversion R; subst e.
      intros _; eexists; split; reflexivity.
  - destruct (length l =? 0)%nat;
      [intros _; eexists; split; reflexivity|].
    destruct (indisponivel env Create);
      [intros _; eexists; split; reflexivity|].
    destruct (negb (cabe_decimal_10_2 (fst (calcular l))));
      [intros _; eexists; split; reflexivity|].
    destruct (negb (cliente_existe clienteId db));
      [intros _; eexists; split; reflexivity|].
    destruct (indisponivel env DeleteMany);
      [intros _; eexists; split; reflexivity|].
    destruct (indisponivel env Commit);
      [intros _; eexists; split; reflexivity|].
    discriminate.
Qed.

Lemma sair_201_compra env clienteId db :
  status (fst (sair env clienteId db)) = 201 ->
  exists c,
    fst (sair env clienteId db) = {| status := 201; corpo := CorpoCompra c |}
    /\ compras (snd (sair env clienteId db)) = compras db ++ [c].
Proof.
  intros H.
  destruct (sair_casos env clienteId db)
    as [[e E] | [l [_ [_ [_ [_ [_ E]]]]]]]; rewrite E in H |- *;
    [discriminate H|].
  eexists. split; reflexivity.
Qed.

(** ** The phone screen and the checkout route *)

(** X20. When the phone screen holds a client with a non-zero id and the
    checkout route refuses the request (400: empty cart, unknown client,
    overflow, database failure), [finalizarCompra] still goes to the
    receipt: it empties the local cart and shows the made-up purchase,
    order 123 for 1259.80, while the ledger of the shop has no new
    purchase. *)
Theorem finalizarCompra_recusada env agora clienteId db tela :
  membro "id" (dadosCliente tela) = JNumber clienteId ->
  clienteId <> 0 ->
  status (fst (sair env clienteId db)) = 400 ->
  finalizarCompra agora
    (makeRequest (Some (fetch_de (fst (sair env clienteId db))))) tela
  = {| estadoAtual := "recibo";
       dadosCliente := dadosCliente tela;
       carrinho := carrinho_sem_itens;
       dadosCompra := dadosSimulados agora |}
  /\ recibo_pedido (dadosSimulados agora) = JNumber 123
  /\ recibo_total (dadosSimulados agora) = JString "1259.80"
  /\ compras (snd (sair env clienteId db)) = compras db.
Proof.
  intros Hid Hne Hs.
  destruct (sair_400_mensagem env clienteId db Hs) as [m [E _]].
  rewrite E. cbn [fst snd].
  unfold finalizarCompra, makeRequest, fetch_de. rewrite Hid.
  cbn [verdadeiro fetch_status status].
  apply Z.eqb_neq in Hne. rewrite Hne.
  repeat split.
Qed.

(** Gabrielle (2) is on the cart screen of the phone; her cart in the
    shop is empty. *)
Lemma finalizarCompra_recusada_gabrielle :
  membro "id"
    (dadosCliente
       {| estadoAtual := "carrinho";
          dadosCliente := JObject [("id", JNumber 2);
                                   ("nome", JString "Gabrielle")];
          carrinho := carrinho_sem_itens;
          dadosCompra := JNull |}) = JNumber 2
  /\ 2 <> 0
  /\ status (fst (sair (ambiente 0) 2 loja)) = 400
  /\ finalizarCompra 0
       (makeRequest (Some (fetch_de (fst (sair (ambiente 0) 2 loja)))))
       {| estadoAtual := "carrinho";
          dadosCliente := JObject [("id", JNumber 2);
                                   ("nome", JString "Gabrielle")];
          carrinho := carrinho_sem_itens;
          dadosCompra := JNull |}
     = {| estadoAtual := "recibo";
          dadosCliente := JObject [("id", JNumber 2);
                                   ("nome", JString "Gabrielle")];
          carrinho := carrinho_sem_itens;
          dadosCompra := dadosSimulados 0 |}
  /\ recibo_pedido (dadosSimulados 0) = JNumber 123
  /\ recibo_total (dadosSimulados 0) = JString "1259.80"
  /\ compras (snd (sair (ambiente 0) 2 loja)) = compras loja.
Proof.
  assert (H1 : membro "id"
                 (dadosCliente
                    {| estadoAtual := "carrinho";
                       dadosCliente := JObject [("id", JNumber 2);
                                                ("nome", JString "Gabrielle")];
                       carrinho := carrinho_sem_itens;
                       dadosCompra := JNull |}) = JNumber 2)
    by reflexivity.
  assert (H2 : 2 <> 0) by discriminate.
  assert (H3 : status (fst (sair (ambiente 0) 2 loja)) = 400)
    by reflexivity.
  split; [exact H1|]. split; [exact H2|]. split; [exact H3|].
  exact (finalizarCompra_recusada (ambiente 0) 0 2 loja _ H1 H2 H3).
Defined.

(** X21. When the checkout route answers 201, the purchase is in the
    ledger, and the phone screen shows it as its receipt unless the
    name of one of the purchased products includes the text
    [<!DOCTYPE]: then the screen takes the answer for a page and shows
    the made-up purchase instead. *)
Theorem finalizarCompra_aceita env agora clienteId db tela c :
  membro "id" (dadosCliente tela) = JNumber clienteId ->
  clienteId <> 0 ->
  fst (sair env clienteId db) = {| status := 201; corpo := CorpoCompra c |} ->
  compras (snd (sair env clienteId db)) = compras db ++ [c]
  /\ finalizarCompra agora
       (makeRequest (Some (fetch_de (fst (sair env clienteId db))))) tela
     = {| estadoAtual := "recibo";
          dadosCliente := dadosCliente tela;
          carrinho := carrinho_sem_itens;
          dadosCompra :=
            if existsb (fun i => contem "<!DOCTYPE" (ic_nome i))
                       (itensComprados c)
            then dadosSimulados agora
            else json_compra c |}.
Proof.
  intros Hid Hne E.
  assert (Hs : status (fst (sair env clienteId db)) = 201)
    by now rewrite E.
  destruct (sair_201_compra env clienteId db Hs) as [c' [E' L]].
  rewrite E in E'. inversion E'; subst c'. clear E'.
  split; [exact L|].
  rewrite E.
  unfold finalizarCompra, makeRequest, fetch_de. rewrite Hid.
  cbn [verdadeiro fetch_status fetch_doctype fetch_json status corpo
       corpo_com_doctype json_corpo].
  apply Z.eqb_neq in Hne. rewrite Hne. cbn [negb andb Z.leb Z.ltb Z.compare].
  now destruct (existsb _ (itensComprados c)).
Qed.

Lemma finalizarCompra_aceita_liliana :
  membro "id"
    (dadosCliente
       {| estadoAtual := "carrinho";
          dadosCliente := JObject [("id", JNumber 3);
                                   ("nome", JString "Liliana")];
          carrinho := carrinho_sem_itens;
          dadosCompra := JNull |}) = JNumber 3
  /\ 3 <> 0
  /\ fst (sair (ambiente 0) 3 loja)
     = {| status := 201; corpo := CorpoCompra compra_liliana |}
  /\ compras (snd (sair (ambiente 0) 3 loja))
     = compras loja ++ [compra_liliana]
  /\ finalizarCompra 0
       (makeRequest (Some (fetch_de (fst (sair (ambiente 0) 3 loja)))))
       {| estadoAtual := "carrinho";
          dadosCliente := JObject [("id", JNumber 3);
                                   ("nome", JString "Liliana")];
          carrinho := carrinho_sem_itens;
          dadosCompra := JNull |}
     = {| estadoAtual := "recibo";
          dadosCliente := JObject [("id", JNumber 3);
                                   ("nome", JString "Liliana")];
          carrinho := carrinho_sem_itens;
          dadosCompra := json_compra compra_liliana |}.
Proof.
  assert (H1 : membro "id"
                 (dadosCliente
                    {| estadoAtual := "carrinho";
                       dadosCliente := JObject [("id", JNumber 3);
                                                ("nome", JString "Liliana")];
                       carrinho := carrinho_sem_itens;
                       dadosCompra := JNull |}) = JNumber 3)
    by reflexivity.
  assert (H2 : 3 <> 0) by discriminate.
  assert (H3 : fst (sair (ambiente 0) 3 loja)
               = {| status := 201; corpo := CorpoCompra compra_liliana |})
    by reflexivity.
  split; [exact H1|]. split; [exact H2|]. split; [exact H3|].
  exact (finalizarCompra_aceita (ambiente 0) 0 3 loja _ compra_liliana
           H1 H2 H3).
Defined.

(** X22. The receipt of a purchase that came from the checkout route
    never shows what was bought: a line of the route has no [produto],
    so every line reads Produto and 0.00, with the stored quantity (1
    for a quantity of 0); the made-up purchase shows its name and
    price. *)
Theorem recibo_itens_do_servidor c agora :
  recibo_itens (json_compra c)
  = Some (map (fun i => (JString "Produto",
                         ou (JNumber (ic_quantidade i)) (JNumber 1),
                         JString "0.00"))
              (itensComprados c))
  /\ recibo_itens (dadosSimulados agora)
     = Some [(JString "Camisa de Seda", JNumber 1, JString "799.90")].
Proof.
  split; [|reflexivity].
  unfold recibo_itens.
  change (membro "itensComprados" (json_compra c))
    with (JArray (map json_item (itensComprados c))).
  induction (itensComprados c) as [|i l IH]; [reflexivity|].
  cbn [map todas].
  change (recibo_linha (json_item i))
    with (Some (JString "Produto",
                ou (JNumber (ic_quantidade i)) (JNumber 1),
                JString "0.00")).
  now rewrite IH.
Qed.

(** ** The simulation screen and the two routes *)

(** X23. A click on Entrar with a client selected puts exactly one line
    on top of the log, the text the route answered: the greeting that
    names a stored client of that id, and then the ball goes to the
    entry; or the message of the unknown client, or of the failed
    lookup, and then the ball stays where it was.  The fallback text of
    the screen is never used. *)
Theorem handleEnter_log responde db app clienteId :
  selecionado (clienteSelecionadoId app) = Some clienteId ->
  exists m,
    handleEnter (api_entrar responde db) app
    = {| clienteSelecionadoId := clienteSelecionadoId app;
         logMessages := Simples (JString m) :: logMessages app;
         clientPosition :=
           if responde && cliente_existe clienteId db
           then Some "entry" else clientPosition app |}
    /\ (responde = true -> cliente_existe clienteId db = true ->
        exists c, In c (clientes db) /\ cliente_id c = clienteId
                  /\ m = mensagem_entrada c)
    /\ (responde = true -> cliente_existe clienteId db = false ->
        m = cliente_nao_encontrado)
    /\ (responde = false -> m = "Erro ao processar a entrada do cliente.").
Proof.
  intros H. unfold handleEnter, api_entrar. rewrite H.
  rewrite cliente_findUnique_existe. unfold entrar.
  destruct responde.
  - destruct (cliente_findUnique clienteId db) as [c|] eqn:F.
    + exists (mensagem_entrada c). split; [reflexivity|].
      split; [|split; discriminate].
      intros _ _. exists c.
      unfold cliente_findUnique in F. apply find_some in F.
      destruct F as [Hin Hid]. apply Z.eqb_eq in Hid. auto.
    + exists cliente_nao_encontrado. split; [reflexivity|].
      split; [discriminate|]. split; [reflexivity|discriminate].
  - eexists. split; [reflexivity|].
    split; [discriminate|]. split; [discriminate|reflexivity].
Qed.

Lemma handleEnter_log_liliana :
  selecionado
    (clienteSelecionadoId
       {| clienteSelecionadoId := IdDoSelect 3;
          logMessages := [];
          clientPosition := None |}) = Some 3
  /\ exists m,
       handleEnter (api_entrar true loja)
         {| clienteSelecionadoId := IdDoSelect 3;
            logMessages := [];
            clientPosition := None |}
       = {| clienteSelecionadoId := IdDoSelect 3;
            logMessages := [Simples (JString m)];
            clientPosition := Some "entry" |}
       /\ (true = true -> cliente_existe 3 loja = true ->
           exists c, In c (clientes loja) /\ cliente_id c = 3
                     /\ m = mensagem_entrada c)
       /\ (true = true -> cliente_existe 3 loja = false ->
           m = cliente_nao_encontrado)
       /\ (true = false -> m = "Erro ao processar a entrada do cliente.").
Proof.
  assert (H : selecionado
                (clienteSelecionadoId
                   {| clienteSelecionadoId := IdDoSelect 3;
                      logMessages := [];
                      clientPosition := None |}) = Some 3)
    by reflexivity.
  split; [exact H|].
  exact (handleEnter_log true loja _ 3 H).
Defined.

(** X24. A click on Sair with a client selected puts exactly one line on
    top of the log.  For a purchase (201) it is the sentence with the
    stored total and the id of the purchase, and the ball goes to the
    exit; for a refusal it is the message of the route, word for word
    and never the fallback text of the screen, the ball stays where it
    was and the shop is as before. *)
Theorem handleExit_log env db app clienteId :
  selecionado (clienteSelecionadoId app) = Some clienteId ->
  (exists c,
     fst (sair env clienteId db)
     = {| status := 201; corpo := CorpoCompra c |}
     /\ handleExit (api_sair env db) app
        = {| clienteSelecionadoId := clienteSelecionadoId app;
             logMessages :=
               Modelo [ Texto "Compra finalizada! Valor total: R$ ";
                        Valor (JDecimal (valorTotal c));
                        Texto ". Recibo ID: ";
                        Valor (JNumber (compra_id c));
                        Texto "." ]
                 :: logMessages app;
             clientPosition := Some "exit" |})
  \/ (exists m,
        sair env clienteId db
        = ({| status := 400; corpo := CorpoObjeto [("error", m)] |}, db)
        /\ m <> ""
        /\ handleExit (api_sair env db) app
           = {| clienteSelecionadoId := clienteSelecionadoId app;
                logMessages := Simples (JString m) :: logMessages app;
                clientPosition := clientPosition app |}).
Proof.
  intros H. unfold handleExit, api_sair. rewrite H.
  destruct (sair_status env clienteId db) as [S|S].
  - left. destruct (sair_201_compra env clienteId db S) as [c [E _]].
    exists c. split; [exact E|]. rewrite E. reflexivity.
  - right. destruct (sair_400_mensagem env clienteId db S) as [m [E Hm]].
    exists m. split; [exact E|]. split.
    + intros ->. discriminate Hm.
    + rewrite E. cbn [fst]. unfold axios_resolve, erro_ou.
      cbn [status corpo json_corpo map fst snd].
      change (membro "error" (JObject [("error", JString m)]))
        with (JString m).
      unfold ou. cbn [verdadeiro]. rewrite Hm. reflexivity.
Qed.

(** Gabrielle (2), chosen in the list, leaves with an empty cart: the
    log shows the message of the empty cart. *)
Lemma handleExit_log_gabrielle :
  selecionado
    (clienteSelecionadoId
       {| clienteSelecionadoId := IdDoSelect 2;
          logMessages := [];
          clientPosition := Some "entry" |}) = Some 2
  /\ handleExit (api_sair (ambiente 0) loja)
       {| clienteSelecionadoId := IdDoSelect 2;
          logMessages := [];
          clientPosition := Some "entry" |}
     = {| clienteSelecionadoId := IdDoSelect 2;
          logMessages := [Simples (JString carrinho_vazio)];
          clientPosition := Some "entry" |}
  /\ ((exists c,
         fst (sair (ambiente 0) 2 loja)
         = {| status := 201; corpo := CorpoCompra c |}
         /\ handleExit (api_sair (ambiente 0) loja)
              {| clienteSelecionadoId := IdDoSelect 2;
                 logMessages := [];
                 clientPosition := Some "entry" |}
            = {| clienteSelecionadoId := IdDoSelect 2;
                 logMessages :=
                   [ Modelo [ Texto "Compra finalizada! Valor total: R$ ";
                              Valor (JDecimal (valorTotal c));
                              Texto ". Recibo ID: ";
                              Valor (JNumber (compra_id c));
                              Texto "." ] ];
                 clientPosition := Some "exit" |})
      \/ (exists m,
            sair (ambiente 0) 2 loja
            = ({| status := 400; corpo := CorpoObjeto [("error", m)] |}, loja)
            /\ m <> ""
            /\ handleExit (api_sair (ambiente 0) loja)
                 {| clienteSelecionadoId := IdDoSelect 2;
                    logMessages := [];
                    clientPosition := Some "entry" |}
               = {| clienteSelecionadoId := IdDoSelect 2;
                    logMessages := [Simples (JString m)];
                    clientPosition := Some "entry" |})).
Proof.
  assert (H : selecionado
                (clienteSelecionadoId
                   {| clienteSelecionadoId := IdDoSelect 2;
                      logMessages := [];
                      clientPosition := Some "entry" |}) = Some 2)
    by reflexivity.
  split; [exact H|]. split; [reflexivity|].
  exact (handleExit_log (ambiente 0) loja _ 2 H).
Defined.
